(** * Danesfield semantic segmentation: tiled inference and fold evaluation

    A shallow embedding of
    [danesfield/segmentation/semantic/tasks/eval.py]: the test-time
    augmentation predictor [predict], the tile partitioner
    [index_in_copy_out], the tile stitcher [predict_samples_large] and the
    fold-driven [Evaluator].

    Conventions of the embedding.
    - Python integers are [Z].  Floating-point samples are idealised as
      real numbers [R]; the float expressions of the partitioner
      ([width/1024.0], [(i+0.5)*cpwid], ...) only ever hold integers or
      half-integers and are written out exactly over [Z].
    - A 4-D tensor or array is its shape together with its cells, read by
      index; [torch] tensors and [numpy] arrays share this model.
    - Exceptions are values of [exn]; a computation yields a [result].
    - Methods of [Evaluator] run in the monad [M]: they read and update
      the instance and emit [event]s (prints, calls to collaborators). *)

From Stdlib Require Import String DecimalString.
From Stdlib Require Import ZArith List Lia Bool.
From Stdlib Require Import Reals Lra.
Import ListNotations.

Local Open Scope Z_scope.

(** ** Python and NumPy primitives *)

Module Py.

Inductive exn : Type :=
| TypeError
| ValueError
| AttributeError
| IndexError
| RuntimeError
| NotImplementedError
| InferenceError.

Inductive result (A : Type) : Type :=
| Ok (a : A)
| Raise (e : exn).
Arguments Ok {A} a.
Arguments Raise {A} e.

Definition rbind {A B} (r : result A) (k : A -> result B) : result B :=
  match r with
  | Ok a => k a
  | Raise e => Raise e
  end.

(** [range(lo, hi)] *)
Definition range (lo hi : Z) : list Z :=
  map (fun k => lo + Z.of_nat k) (seq 0 (Z.to_nat (hi - lo))).

(** [l[i]] for an index known to be non-negative *)
Definition getitem (l : list Z) (i : Z) : Z := nth (Z.to_nat i) l 0.

(** [int(x)] for a float [x] given as the number [twice] of its halves:
    truncation toward zero. *)
Definition int_of_halves (twice : Z) : Z := Z.quot twice 2.

(** [int(np.ceil(a / b))] for a positive [b] *)
Definition ceil_div (a b : Z) : Z := - ((- a) / b).

(** One bound of a slice [a:b] on an axis of length [len]: a negative
    bound counts from the end, and bounds are clipped to the axis. *)
Definition clip (len i : Z) : Z :=
  if i <? 0 then Z.max (i + len) 0 else Z.min i len.

Definition slice_start (len a : Z) : Z := clip len a.
Definition slice_len (len a b : Z) : Z :=
  Z.max 0 (clip len b - clip len a).

End Py.
Export Py.

Notation "x <- r ;; k" := (rbind r (fun x => k))
  (at level 61, r at next level, right associativity).

(** ** Four-dimensional tensors *)

Record tensor : Type := mkTensor {
  dim0 : Z;
  dim1 : Z;
  dim2 : Z;
  dim3 : Z;
  item : Z -> Z -> Z -> Z -> R
}.

Definition same_shape (a b : tensor) : bool :=
  (dim0 a =? dim0 b) && (dim1 a =? dim1 b) &&
  (dim2 a =? dim2 b) && (dim3 a =? dim3 b).

Definition in_bounds (t : tensor) (n c h w : Z) : Prop :=
  0 <= n < dim0 t /\ 0 <= c < dim1 t /\ 0 <= h < dim2 t /\ 0 <= w < dim3 t.

(** [batch.index_select(3, idx)] and [batch.index_select(2, idx)] *)
Definition index_select3 (batch : tensor) (idx : list Z) : tensor :=
  mkTensor (dim0 batch) (dim1 batch) (dim2 batch) (Z.of_nat (length idx))
           (fun n c h w => item batch n c h (getitem idx w)).

Definition index_select2 (batch : tensor) (idx : list Z) : tensor :=
  mkTensor (dim0 batch) (dim1 batch) (Z.of_nat (length idx)) (dim3 batch)
           (fun n c h w => item batch n c (getitem idx h) w).

(** [t[:, :, a:b, c:d]] *)
Definition slice23 (t : tensor) (a b c d : Z) : tensor :=
  mkTensor (dim0 t) (dim1 t)
           (slice_len (dim2 t) a b) (slice_len (dim3 t) c d)
           (fun n ch h w =>
              item t n ch (slice_start (dim2 t) a + h)
                          (slice_start (dim3 t) c + w)).

(** [np.zeros((d0, d1, d2, d3))] *)
Definition zeros (d0 d1 d2 d3 : Z) : tensor :=
  mkTensor d0 d1 d2 d3 (fun _ _ _ _ => 0%R).

(** NumPy broadcasting of one axis of the assigned value onto the target:
    the lengths agree, or the value has length 1 and is repeated. *)
Definition broadcastable (src dst : Z) : bool :=
  (src =? dst) || (src =? 1).

Definition bidx (src i : Z) : Z := if src =? 1 then 0 else i.

(** [dst[:, :, a:b, c:d] = src]: raises [ValueError] when the shape of
    [src] does not broadcast to the shape of the target region. *)
Definition setitem23 (dst : tensor) (a b c d : Z) (src : tensor)
  : result tensor :=
  let h0 := slice_start (dim2 dst) a in
  let hl := slice_len (dim2 dst) a b in
  let w0 := slice_start (dim3 dst) c in
  let wl := slice_len (dim3 dst) c d in
  if broadcastable (dim0 src) (dim0 dst) && broadcastable (dim1 src) (dim1 dst)
     && broadcastable (dim2 src) hl && broadcastable (dim3 src) wl
  then
    Ok (mkTensor (dim0 dst) (dim1 dst) (dim2 dst) (dim3 dst)
          (fun n ch h w =>
             if (h0 <=? h) && (h <? h0 + hl) && (w0 <=? w) && (w <? w0 + wl)
             then item src (bidx (dim0 src) n) (bidx (dim1 src) ch)
                           (bidx (dim2 src) (h - h0)) (bidx (dim3 src) (w - w0))
             else item dst n ch h w))
  else Raise ValueError.

(** [F.sigmoid], cell by cell *)
Definition sigmoid (x : R) : R := (/ (1 + exp (- x)))%R.

Definition F_sigmoid (t : tensor) : tensor :=
  mkTensor (dim0 t) (dim1 t) (dim2 t) (dim3 t)
           (fun n c h w => sigmoid (item t n c h w)).

(** What a model call may return: a tensor, or a tuple whose first
    component is the tensor of interest. *)
Inductive pyval : Type :=
| Tensor (t : tensor)
| Tuple (first : tensor) (rest : list tensor).

(** [torch.mean(torch.stack(masks, 0), 0)]: [torch.stack] wants tensors
    of one shape. *)
Definition sum_cells (ts : list tensor) (n c h w : Z) : R :=
  fold_right Rplus 0%R (map (fun t => item t n c h w) ts).

Fixpoint as_tensors (masks : list pyval) : result (list tensor) :=
  match masks with
  | [] => Ok []
  | Tensor t :: rest => ts <- as_tensors rest ;; Ok (t :: ts)
  | Tuple _ _ :: _ => Raise TypeError
  end.

Definition mean_stack (masks : list pyval) : result tensor :=
  ts <- as_tensors masks ;;
  match ts with
  | [] => Raise RuntimeError
  | t0 :: _ =>
      if forallb (same_shape t0) ts
      then Ok (mkTensor (dim0 t0) (dim1 t0) (dim2 t0) (dim3 t0)
                 (fun n c h w =>
                    (sum_cells ts n c h w / INR (length ts))%R))
      else Raise RuntimeError
  end.

(** ** The test-time augmentation predictor *)

Module flip.
Definition FLIP_NONE : Z := 0.
Definition FLIP_LR : Z := 1.
Definition FLIP_FULL : Z := 2.
End flip.

Definition model : Type := tensor -> result pyval.

Definition flip_tensor_lr (batch : pyval) : result tensor :=
  match batch with
  | Tuple _ _ => Raise AttributeError
  | Tensor t =>
      let columns := dim3 t in
      Ok (index_select3 t (rev (range 0 columns)))
  end.

Definition flip_tensor_ud (batch : pyval) : result tensor :=
  match batch with
  | Tuple _ _ => Raise AttributeError
  | Tensor t =>
      let rows := dim2 t in
      Ok (index_select2 t (rev (range 0 rows)))
  end.

Definition to_numpy (batch : pyval) : tensor :=
  let batch := match batch with Tuple first _ => first | Tensor t => t end in
  F_sigmoid batch.

Definition predict (m : model) (batch : tensor) (flips : Z) : result tensor :=
  pred1 <- m batch ;;
  if flips >? flip.FLIP_NONE then
    b2 <- flip_tensor_lr (Tensor batch) ;;
    o2 <- m b2 ;;
    pred2 <- flip_tensor_lr o2 ;;
    let masks := [pred1; Tensor pred2] in
    masks <-
      (if flips >? flip.FLIP_LR then
         b3 <- flip_tensor_ud (Tensor batch) ;;
         o3 <- m b3 ;;
         pred3 <- flip_tensor_ud o3 ;;
         b4 <- flip_tensor_lr (Tensor batch) ;;
         b4 <- flip_tensor_ud (Tensor b4) ;;
         o4 <- m b4 ;;
         p4 <- flip_tensor_lr o4 ;;
         pred4 <- flip_tensor_ud (Tensor p4) ;;
         Ok (masks ++ [Tensor pred3; Tensor pred4])
       else Ok masks) ;;
    new_mask <- mean_stack masks ;;
    Ok (to_numpy (Tensor new_mask))
  else
    Ok (to_numpy pred1).

(** ** Arrays held by the evaluator

    [full_pred], [full_mask] and [full_image] are arrays of at least two
    axes; a cell holds whatever lies along the trailing axes. *)

Record ndarray (A : Type) : Type := mkArray {
  rows : Z;
  cols : Z;
  cell : Z -> Z -> A
}.
Arguments mkArray {A} rows cols cell.
Arguments rows {A} n.
Arguments cols {A} n.
Arguments cell {A} n i j.

(** [a[lo:hi, lo2:hi2, ...]] *)
Definition slice01 {A} (a : ndarray A) (lo hi lo2 hi2 : Z) : ndarray A :=
  mkArray (slice_len (rows a) lo hi) (slice_len (cols a) lo2 hi2)
          (fun i j => cell a (slice_start (rows a) lo + i)
                             (slice_start (cols a) lo2 + j)).

(** [a.flatten()], row after row *)
Definition flatten {A} (a : ndarray A) : list A :=
  flat_map (fun i => map (fun j => cell a i j) (range 0 (cols a)))
           (range 0 (rows a)).

Definition Rgtb (x y : R) : bool := if Rlt_dec y x then true else false.
Definition Rgeb (x y : R) : bool := if Rle_dec y x then true else false.

(** [np.any(a > .5)] and the like *)
Definition np_any (p : R -> bool) (a : ndarray R) : bool :=
  existsb p (flatten a).

(** [scipy.spatial.distance.dice] on two boolean vectors *)
Definition count (p : bool -> bool -> bool) (uv : list (bool * bool)) : nat :=
  List.length (filter (fun x => p (fst x) (snd x)) uv).

Definition dice (u v : list bool) : result R :=
  if Nat.eqb (List.length u) (List.length v) then
    let uv := combine u v in
    let ntt := count andb uv in
    let ntf := count (fun a b => a && negb b) uv in
    let nft := count (fun a b => negb a && b) uv in
    Ok (INR (ntf + nft) / INR (2 * ntt + ntf + nft))%R
  else Raise ValueError.

(** [np.mean] of a Python list of scores; [None] is [nan], the mean of
    the empty list. *)
Definition np_mean (l : list R) : option R :=
  match l with
  | [] => None
  | _ => Some (fold_right Rplus 0%R l / INR (List.length l))%R
  end.

(** [str(n)] *)
Definition str (n : Z) : string :=
  DecimalString.NilZero.string_of_int (Z.to_int n).

(** ** The evaluator *)

Record Config : Type := mkConfig {
  dbg : bool;
  save_images : bool;
  results_dir : string;
  folder : string;
  predict_batch_size : Z;
  test_batch_size : Z
}.

(** One batch of the data loader; the ['mask'] key may be absent. *)
Record batch : Type := mkBatch {
  image : tensor;
  mask : option tensor;
  image_name : list string
}.

Inductive event : Type :=
| Print (message : string)
| PrintDice (name : option string) (d : R)
| PrintMean (mean : option R)
| SetPostfix (mean : option R)
| MakeDirs (dir : string)
| TorchLoad (fold : Z)
| Visualize (show_light : bool)
| Save (name : option string) (prefix : string).

Module Evaluator.

(** The instance attributes set by [__init__]; the dataset handle [ds]
    is read only by the data loader, a collaborator. *)
Record t : Type := mk {
  config : Config;
  folds : list (list Z * list Z);
  test : bool;
  flips : Z;
  num_workers : Z;
  full_image : option (ndarray (list R));
  full_mask : option (ndarray R);
  current_mask : option (ndarray R);
  full_pred : option (ndarray R);
  border : Z;
  prev_name : option string;
  on_new : bool;
  show_mask : bool;
  need_dice : bool;
  dice_scores : list R
}.

Definition set_full_image (v : option (ndarray (list R))) (s : t) : t :=
  mk (config s) (folds s) (test s) (flips s) (num_workers s) v
     (full_mask s) (current_mask s) (full_pred s) (border s) (prev_name s)
     (on_new s) (show_mask s) (need_dice s) (dice_scores s).
Definition set_full_mask (v : option (ndarray R)) (s : t) : t :=
  mk (config s) (folds s) (test s) (flips s) (num_workers s) (full_image s)
     v (current_mask s) (full_pred s) (border s) (prev_name s)
     (on_new s) (show_mask s) (need_dice s) (dice_scores s).
Definition set_full_pred (v : option (ndarray R)) (s : t) : t :=
  mk (config s) (folds s) (test s) (flips s) (num_workers s) (full_image s)
     (full_mask s) (current_mask s) v (border s) (prev_name s)
     (on_new s) (show_mask s) (need_dice s) (dice_scores s).
Definition set_prev_name (v : option string) (s : t) : t :=
  mk (config s) (folds s) (test s) (flips s) (num_workers s) (full_image s)
     (full_mask s) (current_mask s) (full_pred s) (border s) v
     (on_new s) (show_mask s) (need_dice s) (dice_scores s).
Definition set_show_mask (v : bool) (s : t) : t :=
  mk (config s) (folds s) (test s) (flips s) (num_workers s) (full_image s)
     (full_mask s) (current_mask s) (full_pred s) (border s) (prev_name s)
     (on_new s) v (need_dice s) (dice_scores s).
Definition set_need_dice (v : bool) (s : t) : t :=
  mk (config s) (folds s) (test s) (flips s) (num_workers s) (full_image s)
     (full_mask s) (current_mask s) (full_pred s) (border s) (prev_name s)
     (on_new s) (show_mask s) v (dice_scores s).
Definition set_dice (v : list R) (s : t) : t :=
  mk (config s) (folds s) (test s) (flips s) (num_workers s) (full_image s)
     (full_mask s) (current_mask s) (full_pred s) (border s) (prev_name s)
     (on_new s) (show_mask s) (need_dice s) v.

(** *** The monad of methods: instance state, emitted events, errors *)

Definition M (A : Type) : Type := t -> list event * result (A * t).

Definition ret {A} (a : A) : M A := fun s => ([], Ok (a, s)).

Definition bind {A B} (m : M A) (k : A -> M B) : M B :=
  fun s =>
    match m s with
    | (out, Ok (a, s')) =>
        let (out', r) := k a s' in (out ++ out', r)
    | (out, Raise e) => (out, Raise e)
    end.

Definition emit (e : event) : M unit := fun s => ([e], Ok (tt, s)).
Definition raise {A} (e : exn) : M A := fun _ => ([], Raise e).
Definition gets {A} (f : t -> A) : M A := fun s => ([], Ok (f s, s)).
Definition modify (f : t -> t) : M unit := fun s => ([], Ok (tt, f s)).
Definition lift {A} (r : result A) : M A :=
  fun s => match r with Ok a => ([], Ok (a, s)) | Raise e => ([], Raise e) end.
Definition when (b : bool) (m : M unit) : M unit := if b then m else ret tt.

(** [for x in l: body x] *)
Fixpoint for_each {A} (l : list A) (body : A -> M unit) : M unit :=
  match l with
  | [] => ret tt
  | x :: l' => bind (body x) (fun _ => for_each l' body)
  end.

Local Notation "x <~ m ;; k" := (bind m (fun x => k))
  (at level 61, m at next level, right associativity).
Local Notation "m ;;; k" := (bind m (fun _ => k))
  (at level 61, right associativity).

(** [__init__(self, config, ds, folds, test=False, flips=0,
    num_workers=0, border=12)]; [dir_exists] is what
    [os.path.exists(config.results_dir)] answers. *)
Definition __init__ (dir_exists : bool) (config : Config)
    (folds : list (list Z * list Z)) (test : bool) (flips num_workers : Z)
    (border : Z) : list event * t :=
  let self :=
    mk config folds test flips num_workers None None None None border
       None false (dbg config) false [] in
  (if save_images config && negb dir_exists
   then [MakeDirs (results_dir config)] else [],
   self).

(** The tile partitioner.  [index_lists] is the body of
    [index_in_copy_out] below its guard. *)
Record indices : Type := mkIndices {
  insidx : list Z;
  ineidx : list Z;
  cpsidx : list Z;
  cpeidx : list Z;
  outsidx : list Z;
  outeidx : list Z
}.

Definition append6 (acc : indices) (ins ine cps cpe outs oute : Z)
  : indices :=
  mkIndices (insidx acc ++ [ins]) (ineidx acc ++ [ine])
            (cpsidx acc ++ [cps]) (cpeidx acc ++ [cpe])
            (outsidx acc ++ [outs]) (outeidx acc ++ [oute]).

Definition nwids_of (width : Z) : Z := ceil_div width 1024.

Definition cpwid_of (width : Z) : Z :=
  let nwids := nwids_of width in
  let cpwid := Z.quot width nwids in
  if cpwid mod 2 =? 1 then cpwid + 1 else cpwid.

Definition interior (cpwid : Z) (acc : indices) (i : Z) : indices :=
  let ins := int_of_halves ((2 * i + 1) * cpwid - 1024) in
  let ine := ins + 1024 in
  let cps := int_of_halves (1024 - cpwid) in
  let cpe := int_of_halves (1024 + cpwid) in
  let outs := cpwid * i in
  let oute := cpwid * (i + 1) in
  append6 acc ins ine cps cpe outs oute.

Definition index_lists (width : Z) : indices :=
  let nwids := nwids_of width in
  let cpwid := cpwid_of width in
  let first := mkIndices [0] [1024] [0] [cpwid] [0] [cpwid] in
  let acc := fold_left (interior cpwid) (range 1 (nwids - 1)) first in
  let rest := width - (nwids - 1) * cpwid in
  append6 acc (width - 1024) width (1024 - rest) 1024 (width - rest) width.

Definition index_in_copy_out (width : Z) : M (option indices) :=
  if width <? 1024 then
    emit (Print "Width is smaller than 1024. This is not enough to split") ;;;
    ret None
  else ret (Some (index_lists width)).

(** Unpacking the returned tuple: [None] cannot be unpacked. *)
Definition unpack (r : option indices) : M indices :=
  match r with
  | Some ix => ret ix
  | None => raise TypeError
  end.

(** The two nested loops of [predict_samples_large], threading the
    canvas [predicted]. *)
Fixpoint fold_result {A S} (l : list A) (body : S -> A -> result S) (s : S)
  : result S :=
  match l with
  | [] => Ok s
  | x :: l' => rbind (body s x) (fold_result l' body)
  end.

Definition stitch_cell (m : model) (flips : Z) (img : tensor)
    (x y : indices) (i j : Z) (predicted : tensor) : result tensor :=
  let samples :=
    slice23 img (getitem (insidx x) i) (getitem (ineidx x) i)
                (getitem (insidx y) j) (getitem (ineidx y) j) in
  rbind (predict m samples flips) (fun prediction =>
  setitem23 predicted
    (getitem (outsidx x) i) (getitem (outeidx x) i)
    (getitem (outsidx y) j) (getitem (outeidx y) j)
    (slice23 prediction
       (getitem (cpsidx x) i) (getitem (cpeidx x) i)
       (getitem (cpsidx y) j) (getitem (cpeidx y) j))).

Definition stitch (m : model) (flips : Z) (img : tensor) (x y : indices)
  : result tensor :=
  let predicted := zeros (dim0 img) 1 (dim2 img) (dim3 img) in
  fold_result (range 0 (Z.of_nat (List.length (insidx x))))
    (fun predicted i =>
       fold_result (range 0 (Z.of_nat (List.length (insidx y))))
         (fun predicted j => stitch_cell m flips img x y i j predicted)
         predicted)
    predicted.

Definition predict_samples_large (m : model) (data : batch) : M tensor :=
  let dsize := image data in
  x <~ index_in_copy_out (dim2 dsize) ;;
  x <~ unpack x ;;
  y <~ index_in_copy_out (dim3 dsize) ;;
  y <~ unpack y ;;
  f <~ gets flips ;;
  lift (stitch m f (image data) x y).

Definition predict_samples (m : model) (data : batch) : M tensor :=
  f <~ gets flips ;;
  lift (predict m (image data) f).



(** [visualize] only drives the display; it is one event here. *)
Definition visualize (show_light : bool) : M unit :=
  emit (Visualize show_light).

Definition cut_border {A} (image : option (ndarray A))
  : M (option (ndarray A)) :=
  b <~ gets border ;;
  if b =? 0 then ret image
  else match image with
       | None => raise TypeError
       | Some a => ret (Some (slice01 a b (- b) b (- b)))
       end.

Section Collaborators.

(** What the evaluator is given from outside the file: the trained
    model stored for each fold, the batches the data loader yields for
    a validation index set, and the two methods a subclass provides
    ([process_data] and [save] raise [NotImplementedError] in the base
    class). *)
Variable weights : Config -> Z -> model.
Variable loader : bool -> list Z -> list batch.
Variable process_data : tensor -> model -> batch -> string -> M unit.
Variable save : option string -> string -> M unit.

Definition read_model (fold : Z) : M model :=
  emit (TorchLoad fold) ;;;
  c <~ gets config ;;
  ret (weights c fold).

(** The last lines of [on_image_constructed]: visualize and save. *)
Definition emit_result (prefix : string) : M unit :=
  c <~ gets config ;;
  when (dbg c) (visualize true) ;;;
  when (save_images c) (name <~ gets prev_name ;; save name prefix).

(** The scoring branch; it answers whether the method goes on
    ([false] is the early [return]). *)
Definition score : M bool :=
  msk <~ gets full_mask ;;
  msk <~ cut_border msk ;;
  modify (set_full_mask msk) ;;;
  pred <~ gets full_pred ;;
  match pred, msk with
  | Some pred, Some msk =>
      if np_any (fun v => Rgtb v (1 / 2)) pred
         || np_any (fun v => Rgeb v 1) msk
      then
        dist <~ lift (dice (map (fun v => Rgtb v (1 / 2)) (flatten pred))
                           (map (fun v => Rgeb v 1) (flatten msk))) ;;
        let d := (1 - dist)%R in
        modify (fun s => set_dice (dice_scores s ++ [d]) s) ;;;
        c <~ gets config ;;
        name <~ gets prev_name ;;
        when (dbg c) (emit (PrintDice name d)) ;;;
        ret true
      else ret false
  | _, _ => raise TypeError
  end.

Definition on_image_constructed (prefix : string) : M unit :=
  pred <~ gets full_pred ;;
  pred <~ cut_border pred ;;
  modify (set_full_pred pred) ;;;
  img <~ gets full_image ;;
  match img with
  | Some _ => img <~ cut_border img ;; modify (set_full_image img)
  | None => ret tt
  end ;;;
  msk <~ gets full_mask ;;
  go_on <~ match msk with
           | Some _ => score
           | None => ret true
           end ;;
  if go_on then emit_result prefix else ret tt.

Definition enumerate {A} (l : list A) : list (Z * A) :=
  combine (range 0 (Z.of_nat (List.length l))) l.

Definition skipped (skip_folds : option (list Z)) (fold : Z) : bool :=
  match skip_folds with
  | None => false
  | Some fs => existsb (Z.eqb fold) fs
  end.

(** One batch of the inner loop of [predict]. *)
Definition on_batch (m : model) (prefix : string) (data : batch)
  : M unit :=
  sm <~ gets show_mask ;;
  modify (set_show_mask
            (match mask data with Some _ => sm | None => false end)) ;;;
  when (match mask data with Some _ => false | None => true end)
       (modify (set_need_dice false)) ;;;
  predicted <~ predict_samples m data ;;
  process_data predicted m data prefix ;;;
  c <~ gets config ;;
  nd <~ gets need_dice ;;
  when (negb (dbg c) && nd)
       (d <~ gets dice_scores ;; emit (SetPostfix (np_mean d))).

(** One fold that is not skipped. *)
Definition on_fold (fold : Z) (val_index : list Z) (prefix : string)
  : M unit :=
  modify (set_prev_name None) ;;;
  tst <~ gets test ;;
  let val_dl := loader tst val_index in
  m <~ read_model fold ;;
  for_each val_dl (on_batch m prefix) ;;;
  on_image_constructed prefix ;;;
  nd <~ gets need_dice ;;
  when nd (d <~ gets dice_scores ;; emit (PrintMean (np_mean d))).

(** The body of the loop over the folds, for one item of
    [enumerate(self.folds)]. *)
Definition predict_body (skip_folds : option (list Z))
    (entry : Z * (list Z * list Z)) : M unit :=
  let fold := fst entry in
  let val_index := snd (snd entry) in
  tst <~ gets test ;;
  let prefix :=
    if tst then ("fold" ++ str fold ++ "_")%string else ""%string in
  if skipped skip_folds fold then ret tt
  else on_fold fold val_index prefix.

Definition predict (skip_folds : option (list Z)) : M unit :=
  fs <~ gets folds ;;
  for_each (enumerate fs) (predict_body skip_folds).

End Collaborators.

(** The two methods the base class leaves to its subclasses. *)
Definition save (name : option string) (prefix : string) : M unit :=
  raise NotImplementedError.

Definition process_data (predicted : tensor) (m : model) (data : batch)
    (prefix : string) : M unit :=
  raise NotImplementedError.

(** [onepredict]: one model for a fixed index set, every batch stitched by
    [predict_samples_large].  [read_onetrain_model] is what loading the
    model answers for a configuration; [test_loader] is the data loader
    with [test_batch_size]. *)
Definition onepredict
    (read_onetrain_model : Config -> result model)
    (test_loader : bool -> list Z -> list batch)
    (process_data : tensor -> model -> batch -> string -> M unit)
    (save : option string -> string -> M unit) : M unit :=
  tst <~ gets test ;;
  let prefix := if tst then "onetrain"%string else ""%string in
  modify (set_prev_name None) ;;;
  let val_index := range 0 4 in
  let val_dl := test_loader tst val_index in
  c <~ gets config ;;
  m <~ lift (read_onetrain_model c) ;;
  for_each val_dl
    (fun data =>
       sm <~ gets show_mask ;;
       modify (set_show_mask
                 (match mask data with Some _ => sm | None => false end)) ;;;
       when (match mask data with Some _ => false | None => true end)
            (modify (set_need_dice false)) ;;;
       predicted <~ predict_samples_large m data ;;
       process_data predicted m data prefix ;;;
       c <~ gets config ;;
       nd <~ gets need_dice ;;
       when (negb (dbg c) && nd)
            (d <~ gets dice_scores ;; emit (SetPostfix (np_mean d)))) ;;;
  on_image_constructed save prefix ;;;
  nd <~ gets need_dice ;;
  when nd (d <~ gets dice_scores ;; emit (PrintMean (np_mean d))).

End Evaluator.

Notation "x <~ m ;; k" := (Evaluator.bind m (fun x => k))
  (at level 61, m at next level, right associativity).
Notation "m ;;; k" := (Evaluator.bind m (fun _ => k))
  (at level 61, right associativity).

(** ** Vocabulary of the statements *)

(** The index of the last tile of an axis: the lists hold the first tile,
    [nwids - 2] interior tiles and the last tile. *)
Definition last_index (width : Z) : Z :=
  Z.max (Evaluator.nwids_of width - 2) 0 + 1.

(** The remainder the last tile takes. *)
Definition rest_of (width : Z) : Z :=
  width - (Evaluator.nwids_of width - 1) * Evaluator.cpwid_of width.

(** Tile [k] of an axis of length [width] is well formed: its window lies
    in the source, its crop lies in the window, and the crop is placed
    where it was read. *)
Definition tile_ok (width : Z) (ix : Evaluator.indices) (k : Z) : Prop :=
  let ins := getitem (Evaluator.insidx ix) k in
  let ine := getitem (Evaluator.ineidx ix) k in
  let cps := getitem (Evaluator.cpsidx ix) k in
  let cpe := getitem (Evaluator.cpeidx ix) k in
  let outs := getitem (Evaluator.outsidx ix) k in
  let oute := getitem (Evaluator.outeidx ix) k in
  0 <= ins /\ ine = ins + 1024 /\ ine <= width /\
  0 <= cps <= cpe /\ cpe <= 1024 /\
  outs = ins + cps /\ oute = ins + cpe.

(** The ranges [starts[k], ends[k]) taken in order partition [lo, hi):
    each begins where the one before ended, and none is empty. *)
Fixpoint partitions (lo : Z) (starts ends : list Z) (hi : Z) : Prop :=
  match starts, ends with
  | [], [] => lo = hi
  | s :: starts', e :: ends' => s = lo /\ s < e /\ partitions e starts' ends' hi
  | _, _ => False
  end.

(** A sample configuration and instance, as [__init__] builds it. *)
Definition sample_config : Config :=
  mkConfig false true "results" "resnet34_" 4 4.

Definition sample_evaluator : Evaluator.t :=
  snd (Evaluator.__init__ true sample_config
         [([1; 2], [0]); ([0; 2], [1]); ([0; 1], [2])] false 0 0 12).

(** A single-channel raster of the given extent filled with one value. *)
Definition constant_image (h w : Z) (v : R) : tensor :=
  mkTensor 1 1 h w (fun _ _ _ _ => v).

(** What [cut_border] makes of an array for a border [b]. *)
Definition trim {A} (b : Z) (a : ndarray A) : ndarray A :=
  if b =? 0 then a else slice01 a b (- b) b (- b).

(** The instance once its three arrays are trimmed. *)
Definition trimmed (s : Evaluator.t) : Evaluator.t :=
  let b := Evaluator.border s in
  Evaluator.set_full_mask (option_map (trim b) (Evaluator.full_mask s))
    (Evaluator.set_full_image (option_map (trim b) (Evaluator.full_image s))
       (Evaluator.set_full_pred (option_map (trim b) (Evaluator.full_pred s))
          s)).

(** The thresholded prediction, or the mask, holds a positive value. *)
Definition any_positive_pred (a : ndarray R) : bool :=
  np_any (fun v => Rgtb v (1 / 2)) a.
Definition any_positive_mask (a : ndarray R) : bool :=
  np_any (fun v => Rgeb v 1) a.

(** A [save] that only records that it was called. *)
Definition recording_save (name : option string) (prefix : string)
  : Evaluator.M unit :=
  Evaluator.emit (Save name prefix).

(** A one-cell array. *)
Definition one_cell (v : R) : ndarray R := mkArray 1 1 (fun _ _ => v).

(** An instance with no border, holding an all-zero prediction and an
    all-zero mask for the image "a". *)
Definition degenerate_evaluator : Evaluator.t :=
  Evaluator.set_prev_name (Some "a"%string)
    (Evaluator.set_full_mask (Some (one_cell 0))
       (Evaluator.set_full_pred (Some (one_cell 0))
          (snd (Evaluator.__init__ true sample_config [] false 0 0 0)))).

(** The reading of the spec for a degenerate image: the result is emitted
    as in the scored case, that is, [on_image_constructed] produces the
    events of its emitting tail run on the trimmed instance. *)
Definition emitted_as_scored
    (save : option string -> string -> Evaluator.M unit)
    (prefix : string) (s : Evaluator.t) : Prop :=
  fst (Evaluator.on_image_constructed save prefix s)
  = fst (Evaluator.emit_result save prefix (trimmed s)).

(** A method respects a constraint [P] on events and a relation [R] on
    instances when, from every instance, each event it emits satisfies [P]
    and, if it returns, the instance it leaves is related by [R] to the one
    it started from. *)
Definition respects (P : event -> Prop) (R : Evaluator.t -> Evaluator.t -> Prop)
    {A} (m : Evaluator.M A) : Prop :=
  forall s, Forall P (fst (m s)) /\
            forall a s', snd (m s) = Ok (a, s') -> R s s'.

(** An event that is not the loading of the model of a fold of [skip]. *)
Definition not_loading (skip : list Z) (e : event) : Prop :=
  forall f, In f skip -> e <> TorchLoad f.

(** No constraint on how the instance changes. *)
Definition any_change (s s' : Evaluator.t) : Prop := True.

(** The scores were only extended. *)
Definition scores_extended (s s' : Evaluator.t) : Prop :=
  exists collected,
    Evaluator.dice_scores s' = Evaluator.dice_scores s ++ collected.

(** The folds [predict] goes through when [skip] is given: the items of
    [enumerate(self.folds)] whose index is not in [skip]. *)
Definition kept_folds (skip : list Z) (s : Evaluator.t)
  : list (Z * (list Z * list Z)) :=
  filter (fun entry => negb (existsb (Z.eqb (fst entry)) skip))
         (Evaluator.enumerate (Evaluator.folds s)).

(** A model that returns its input, and a subclass for images that come in
    one batch: [process_data] keeps the first plane of the prediction and
    of the mask as the whole image and asks for scores when there is a
    mask; [save] only records its call. *)
Definition identity_model : model := fun t => Ok (Tensor t).

Definition plane (t : tensor) : ndarray R :=
  mkArray (dim2 t) (dim3 t) (fun i j => item t 0 0 i j).

Definition single_image_process_data (predicted : tensor) (m : model)
    (data : batch) (prefix : string) : Evaluator.M unit :=
  Evaluator.modify (Evaluator.set_full_pred (Some (plane predicted))) ;;;
  Evaluator.modify (Evaluator.set_full_mask (option_map plane (mask data))) ;;;
  Evaluator.modify (Evaluator.set_prev_name (hd_error (image_name data))) ;;;
  Evaluator.modify
    (Evaluator.set_need_dice
       (match mask data with Some _ => true | None => false end)).

(** Two folds of one image each, a single cell of value 1: the mask of the
    image of fold 0 is 1, the mask of the image of fold 1 is 0. *)
Definition two_fold_loader (tst : bool) (val_index : list Z) : list batch :=
  map (fun i => mkBatch (constant_image 1 1 1)
                  (Some (constant_image 1 1 (if i =? 0 then 1 else 0)))
                  [if i =? 0 then "a"%string else "b"%string])
      val_index.

Definition two_fold_config : Config :=
  mkConfig false false "results" "resnet34_" 4 4.

Definition two_fold_evaluator : Evaluator.t :=
  snd (Evaluator.__init__ true two_fold_config
         [([1], [0]); ([0], [1])] false 0 0 0).

(** What the folds of this run need of the instance they start from. *)
Definition two_fold_ready (s : Evaluator.t) : Prop :=
  Evaluator.config s = two_fold_config /\ Evaluator.border s = 0 /\
  Evaluator.flips s = 0 /\ Evaluator.test s = false /\
  Evaluator.full_image s = None.

Definition two_fold (fold : Z) : Evaluator.M unit :=
  Evaluator.on_fold (fun _ _ => identity_model) two_fold_loader
    single_image_process_data recording_save fold [fold] "".

(** The instance the run has reached when fold 0 is done. *)
Definition two_fold_after_first : Evaluator.t :=
  match snd (two_fold 0 two_fold_evaluator) with
  | Ok (_, s) => s
  | Raise _ => two_fold_evaluator
  end.

(** No constraint on the events. *)
Definition any_event (e : event) : Prop := True.

(** The reading of the spec for the mean reported by a fold: when the
    fold [run] ends on an instance that asks for scores, the last thing
    printed is the mean of the scores collected during the fold, that is,
    of the scores the fold added to those of the instance it started
    from. *)
Definition reports_own_mean (run : Evaluator.M unit) (s : Evaluator.t)
  : Prop :=
  forall out s',
    run s = (out, Ok (tt, s')) -> Evaluator.need_dice s' = true ->
    exists collected,
      Evaluator.dice_scores s' = Evaluator.dice_scores s ++ collected /\
      last out (Print "") = PrintMean (np_mean collected).

(** Two tensors of one shape that hold the same values. *)
Definition agree (a b : tensor) : Prop :=
  dim0 a = dim0 b /\ dim1 a = dim1 b /\ dim2 a = dim2 b /\ dim3 a = dim3 b /\
  forall n c h w, in_bounds a n c h w -> item a n c h w = item b n c h w.

(** The variants of test-time augmentation: a variant flips the batch, asks
    the model, and flips the answer back.  A tuple is no tensor: stacking
    it raises [TypeError], flipping it [AttributeError]. *)
Definition tensor_of (v : pyval) : result tensor :=
  match v with
  | Tensor t => Ok t
  | Tuple _ _ => Raise TypeError
  end.

Definition augmentation : Type :=
  (tensor -> result tensor) * (pyval -> result tensor).

Definition aug_none : augmentation := (fun b => Ok b, tensor_of).
Definition aug_lr : augmentation :=
  (fun b => flip_tensor_lr (Tensor b), flip_tensor_lr).
Definition aug_ud : augmentation :=
  (fun b => flip_tensor_ud (Tensor b), flip_tensor_ud).
Definition aug_lr_ud : augmentation :=
  (fun b => b' <- flip_tensor_lr (Tensor b) ;; flip_tensor_ud (Tensor b'),
   fun o => p <- flip_tensor_lr o ;; flip_tensor_ud (Tensor p)).

Definition augmentations (flips : Z) : list augmentation :=
  if flips >? flip.FLIP_LR then [aug_none; aug_lr; aug_ud; aug_lr_ud]
  else if flips >? flip.FLIP_NONE then [aug_none; aug_lr]
  else [aug_none].

Definition variant (m : model) (batch : tensor) (aug : augmentation)
  : result tensor :=
  b <- fst aug batch ;; o <- m b ;; snd aug o.

Fixpoint collect {A} (rs : list (result A)) : result (list A) :=
  match rs with
  | [] => Ok []
  | r :: rs' => a <- r ;; l <- collect rs' ;; Ok (a :: l)
  end.

Definition tta_variants (m : model) (batch : tensor) (flips : Z)
  : result (list tensor) :=
  collect (map (variant m batch) (augmentations flips)).

(** The mean, cell by cell, of the squashed variants. *)
Definition mean_of_squashed (ps : list tensor) (n c h w : Z) : R :=
  (sum_cells (map F_sigmoid ps) n c h w / INR (List.length ps))%R.

(** A model that answers everywhere with the first cell of its input, and a
    batch of two cells, 0 and 2. *)
Definition first_cell_model : model :=
  fun t => Ok (Tensor (mkTensor (dim0 t) (dim1 t) (dim2 t) (dim3 t)
                         (fun _ _ _ _ => item t 0 0 0 0))).

Definition two_cells : tensor :=
  mkTensor 1 1 1 2 (fun _ _ _ w => if w =? 0 then 0%R else 2%R).

(** The tensors [flip_tensor_lr] and [flip_tensor_ud] return. *)
Definition mirror_lr (t : tensor) : tensor :=
  index_select3 t (rev (range 0 (dim3 t))).
Definition mirror_ud (t : tensor) : tensor :=
  index_select2 t (rev (range 0 (dim2 t))).

(** The index lists [ix] tile an axis of length [width]: every tile is
    well formed and every position lies in the output range of a tile. *)
Definition tiles_fit (width : Z) (ix : Evaluator.indices) : Prop :=
  let n := Z.of_nat (List.length (Evaluator.insidx ix)) in
  (forall k, 0 <= k < n -> tile_ok width ix k) /\
  (forall x, 0 <= x < width ->
     exists k, 0 <= k < n /\
       getitem (Evaluator.outsidx ix) k <= x < getitem (Evaluator.outeidx ix) k).

(** The canvas is right where the tiles of [done] were placed. *)
Definition stitched (img : tensor) (x y : Evaluator.indices)
    (done : list (Z * Z)) (p : tensor) : Prop :=
  dim0 p = dim0 img /\ dim1 p = 1 /\ dim2 p = dim2 img /\ dim3 p = dim3 img /\
  forall n c h w,
    in_bounds p n c h w ->
    (exists i j,
       In (i, j) done /\
       getitem (Evaluator.outsidx x) i <= h < getitem (Evaluator.outeidx x) i /\
       getitem (Evaluator.outsidx y) j <= w < getitem (Evaluator.outeidx y) j) ->
    item p n c h w = sigmoid (item img n c h w).

(** * Properties *)

(** ** Lists, ranges and slices *)

Lemma range_length lo hi : List.length (range lo hi) = Z.to_nat (hi - lo).
Proof. unfold range. now rewrite length_map, length_seq. Qed.

Lemma in_range lo hi k : In k (range lo hi) <-> lo <= k < hi.
Proof.
  unfold range. rewrite in_map_iff. split.
  - intros (i & <- & Hi). apply in_seq in Hi. lia.
  - intros H. exists (Z.to_nat (k - lo)). split; [lia|].
    apply in_seq. lia.
Qed.

Lemma getitem_range lo hi k :
  0 <= k < hi - lo -> getitem (range lo hi) k = lo + k.
Proof.
  intros H. unfold getitem, range.
  rewrite nth_indep with (d' := lo + Z.of_nat 0)
    by (rewrite length_map, length_seq; lia).
  rewrite (map_nth (fun i => lo + Z.of_nat i)), seq_nth by lia. lia.
Qed.

Lemma getitem_rev_range n k :
  0 <= k < n -> getitem (rev (range 0 n)) k = n - 1 - k.
Proof.
  intros H. unfold getitem.
  rewrite rev_nth by (rewrite range_length; lia).
  rewrite range_length.
  replace (Z.to_nat (n - 0) - S (Z.to_nat k))%nat with (Z.to_nat (n - 1 - k))
    by lia.
  fold (getitem (range 0 n) (n - 1 - k)).
  rewrite getitem_range; lia.
Qed.

(** The three-part lists the partitioner builds: a head, one entry per
    interior index, a last entry. *)
Lemma getitem_parts a f m z k :
  0 <= k <= Z.max (m - 1) 0 + 1 ->
  getitem ([a] ++ map f (range 1 m) ++ [z]) k =
  if k =? 0 then a else if k <? m then f k else z.
Proof.
  intros H. unfold getitem.
  destruct (Z.eqb_spec k 0) as [->|Hk]; [reflexivity|].
  replace (Z.to_nat k) with (S (Z.to_nat (k - 1))) by lia. cbn [app nth].
  destruct (Z.ltb_spec k m) as [Hlt|Hge].
  - rewrite app_nth1 by (rewrite length_map, range_length; lia).
    rewrite nth_indep with (d' := f 0)
      by (rewrite length_map, range_length; lia).
    rewrite map_nth.
    fold (getitem (range 1 m) (k - 1)).
    rewrite getitem_range by lia. f_equal. lia.
  - rewrite app_nth2 by (rewrite length_map, range_length; lia).
    rewrite length_map, range_length.
    replace (Z.to_nat (k - 1) - Z.to_nat (m - 1))%nat with 0%nat by lia.
    reflexivity.
Qed.

Lemma parts_length {A} (a : A) (f : Z -> A) m z :
  Z.of_nat (List.length ([a] ++ map f (range 1 m) ++ [z]))
  = Z.max (m - 1) 0 + 2.
Proof.
  rewrite !length_app, length_map, range_length. cbn [List.length]. lia.
Qed.

Lemma quot_double y : Z.quot (2 * y) 2 = y.
Proof. rewrite Z.mul_comm. apply Z.quot_mul. lia. Qed.

Lemma clip_inside len i : 0 <= i <= len -> clip len i = i.
Proof. intros H. unfold clip. destruct (Z.ltb_spec i 0); lia. Qed.

Lemma slice_inside len a b :
  0 <= a <= b -> b <= len ->
  slice_start len a = a /\ slice_len len a b = b - a.
Proof.
  intros H1 H2. unfold slice_start, slice_len.
  rewrite !clip_inside by lia. lia.
Qed.

(** ** The tile partitioner *)

Section Partitioner.

Import Evaluator.

Variable width : Z.
Hypothesis wide : 1024 <= width.

Local Abbreviation n := (nwids_of width).
Local Abbreviation c := (cpwid_of width).
Local Abbreviation rest := (width - (n - 1) * c).

Lemma nwids_bounds : 1 <= n /\ 1024 * (n - 1) < width <= 1024 * n.
Proof.
  unfold nwids_of, ceil_div.
  pose proof (Z.div_mod (- width) 1024 ltac:(lia)) as E.
  pose proof (Z.mod_pos_bound (- width) 1024 ltac:(lia)) as B.
  lia.
Qed.

Lemma cpwid_quotient :
  let q := width / n in
  n * q <= width < n * q + n /\ (c = q \/ c = q + 1) /\ c mod 2 = 0.
Proof.
  destruct nwids_bounds as [Hn _].
  intros q. unfold cpwid_of.
  rewrite Z.quot_div_nonneg by lia. fold q.
  pose proof (Z.div_mod width n ltac:(lia)) as E.
  pose proof (Z.mod_pos_bound width n ltac:(lia)) as B. fold q in E.
  split; [lia|].
  pose proof (Z.div_mod q 2 ltac:(lia)) as E2.
  pose proof (Z.mod_pos_bound q 2 ltac:(lia)) as B2.
  destruct (Z.eqb_spec (q mod 2) 1) as [H1|H1].
  - split; [now right|].
    replace (q + 1) with (1 * 2 + (q - 1)) by lia.
    rewrite Z.add_comm, Z.mod_add by lia.
    replace (q - 1) with (2 * (q / 2)) by lia.
    rewrite Z.mul_comm. apply Z.mod_mul. lia.
  - split; [now left|lia].
Qed.

Lemma cpwid_bounds : 0 < c <= 1024 /\ (n - 1) * c < width.
Proof.
  destruct nwids_bounds as (Hn & Hlo & Hhi).
  destruct cpwid_quotient as (Hq & Hc & Heven).
  generalize dependent (cpwid_of width). intros c0 Hc Heven.
  generalize dependent (width / nwids_of width). intros q Hq Hc.
  assert (Hq1 : 1 <= q) by nia.
  assert (Hq2 : q <= 1024) by nia.
  assert (Hc2 : c0 <= 1024).
  { destruct Hc as [Hc|Hc]; [lia|].
    destruct (Z.eq_dec q 1024) as [E|]; [|lia].
    subst. discriminate Heven. }
  split; [lia|]. nia.
Qed.

Lemma cpwid_even : exists h, c = 2 * h.
Proof.
  destruct cpwid_quotient as (_ & _ & Heven).
  exists (c / 2). pose proof (Z.div_mod c 2 ltac:(lia)). lia.
Qed.

Lemma rest_positive : 0 < rest.
Proof. destruct cpwid_bounds. lia. Qed.

(** With three tiles or more, the crop is wide enough for the interior
    windows to stay inside the source. *)
Lemma cpwid_large : 3 <= n -> 683 <= c + 1 /\ 2 * (1024 - c) < rest.
Proof.
  intros H3.
  destruct nwids_bounds as (Hn & Hlo & Hhi).
  destruct cpwid_quotient as (Hq & Hc & Heven).
  destruct cpwid_bounds as [Hc1 Hc2].
  set (q := width / n) in *.
  split; [|nia].
  assert (682 <= q) by nia. lia.
Qed.

(** The six lists, entry by entry. *)
Lemma fold_interior l acc :
  fold_left (interior c) l acc =
  mkIndices
    (insidx acc ++ map (fun i => int_of_halves ((2 * i + 1) * c - 1024)) l)
    (ineidx acc
       ++ map (fun i => int_of_halves ((2 * i + 1) * c - 1024) + 1024) l)
    (cpsidx acc ++ map (fun _ => int_of_halves (1024 - c)) l)
    (cpeidx acc ++ map (fun _ => int_of_halves (1024 + c)) l)
    (outsidx acc ++ map (fun i => c * i) l)
    (outeidx acc ++ map (fun i => c * (i + 1)) l).
Proof.
  revert acc. induction l as [|i l IH]; intros acc; cbn [fold_left map].
  - rewrite !app_nil_r. now destruct acc.
  - rewrite IH. unfold interior, append6. cbn.
    now rewrite <- !app_assoc.
Qed.

Lemma index_lists_length :
  Z.of_nat (List.length (insidx (index_lists width))) = last_index width + 1.
Proof.
  unfold index_lists. rewrite fold_interior. cbn.
  rewrite length_app, length_map, range_length. cbn [List.length].
  unfold last_index. lia.
Qed.

Lemma index_lists_entry k :
  0 <= k <= last_index width ->
  let ix := index_lists width in
  (getitem (insidx ix) k, getitem (ineidx ix) k,
   getitem (cpsidx ix) k, getitem (cpeidx ix) k,
   getitem (outsidx ix) k, getitem (outeidx ix) k) =
  if k =? 0 then (0, 1024, 0, c, 0, c)
  else if k <? n - 1 then
    (k * c + c / 2 - 512, k * c + c / 2 + 512,
     512 - c / 2, 512 + c / 2, c * k, c * (k + 1))
  else (width - 1024, width, 1024 - rest, 1024, width - rest, width).
Proof.
  intros Hk ix. subst ix. unfold index_lists.
  rewrite fold_interior. cbn [insidx ineidx cpsidx cpeidx outsidx outeidx append6].
  rewrite <- !app_assoc.
  unfold last_index in Hk.
  rewrite !getitem_parts by lia.
  destruct (Z.eqb_spec k 0) as [Hk0|Hk0]; [reflexivity|].
  destruct (Z.ltb_spec k (n - 1)) as [Hlt|Hge]; [|reflexivity].
  destruct cpwid_even as [h Hh]. unfold int_of_halves.
  replace ((2 * k + 1) * c - 1024) with (2 * (k * c + h - 512)) by lia.
  replace (1024 - c) with (2 * (512 - h)) by lia.
  replace (1024 + c) with (2 * (512 + h)) by lia.
  rewrite !quot_double.
  replace (c / 2) with h
    by (rewrite Hh, Z.mul_comm, Z.div_mul; lia).
  replace (k * c + h - 512 + 1024) with (k * c + h + 512) by lia.
  reflexivity.
Qed.

End Partitioner.

Ltac entry_of H w Hw k :=
  pose proof (index_lists_entry w Hw k ltac:(lia)) as H; cbv zeta in H;
  let ix := fresh "ix" in
  set (ix := Evaluator.index_lists w) in *; clearbody ix.

Ltac split_entry E :=
  repeat (apply pair_equal_spec in E;
          let E' := fresh "E" in destruct E as [E E']);
  repeat match goal with
         | H : getitem _ _ = _ |- _ => rewrite H in *; clear H
         end.

Lemma last_index_bounds width :
  1024 <= width ->
  1 <= last_index width /\
  (Evaluator.nwids_of width - 1 <= last_index width) /\
  (2 <= Evaluator.nwids_of width ->
   last_index width = Evaluator.nwids_of width - 1).
Proof.
  intros Hw. destruct (nwids_bounds width Hw) as (Hn & _).
  unfold last_index. lia.
Qed.

(** Every tile of an axis is well formed as long as the remainder fits in
    one window. *)
Lemma tiles_ok width k :
  1024 <= width -> rest_of width <= 1024 ->
  0 <= k <= last_index width ->
  tile_ok width (Evaluator.index_lists width) k.
Proof.
  intros Hw Hrest Hk. unfold rest_of in Hrest.
  entry_of E width Hw k.
  destruct (nwids_bounds width Hw) as (Hn & Hlo & Hhi).
  destruct (cpwid_bounds width Hw) as ((Hc0 & Hc1) & Hc2).
  destruct (cpwid_even width Hw) as [h Hh].
  unfold tile_ok.
  destruct (Z.eqb_spec k 0) as [Hk0|Hk0];
    [|destruct (Z.ltb_spec k (Evaluator.nwids_of width - 1)) as [Hlt|Hge]];
    split_entry E.
  - lia.
  - destruct (cpwid_large width Hw ltac:(lia)) as [Hbig Hroom].
    replace (Evaluator.cpwid_of width / 2) with h
      by (rewrite Hh, Z.mul_comm, Z.div_mul; lia).
    repeat apply conj; nia.
  - lia.
Qed.

(** Every position of an axis lies in the output range of some tile. *)
Lemma tiles_cover width x :
  1024 <= width -> 0 <= x < width ->
  exists k, 0 <= k <= last_index width /\
    getitem (Evaluator.outsidx (Evaluator.index_lists width)) k <= x
    < getitem (Evaluator.outeidx (Evaluator.index_lists width)) k.
Proof.
  intros Hw Hx.
  destruct (nwids_bounds width Hw) as (Hn & Hlo & Hhi).
  destruct (cpwid_bounds width Hw) as ((Hc0 & Hc1) & Hc2).
  destruct (last_index_bounds width Hw) as (Hl1 & Hl2 & Hl3).
  set (c := Evaluator.cpwid_of width) in *.
  set (n := Evaluator.nwids_of width) in *.
  destruct (Z_lt_le_dec x c) as [Hfirst|Hrest1].
  - exists 0. split; [lia|].
    entry_of E width Hw 0. cbn in E.
    split_entry E. fold c. lia.
  - destruct (Z_lt_le_dec x ((n - 1) * c)) as [Hmid|Hlast].
    + pose proof (Z.div_mod x c ltac:(lia)) as Ed.
      pose proof (Z.mod_pos_bound x c ltac:(lia)) as Bd.
      set (k := x / c) in *.
      assert (Hk1 : 1 <= k) by nia.
      assert (Hk2 : k < n - 1) by nia.
      exists k. split; [lia|].
      entry_of E width Hw k.
      destruct (Z.eqb_spec k 0) as [Hk0|Hk0]; [lia|].
      fold n in E. destruct (Z.ltb_spec k (n - 1)) as [Hlt|Hge]; [|lia].
      split_entry E. fold c. nia.
    + exists (last_index width). split; [lia|].
      entry_of E width Hw (last_index width).
      destruct (Z.eqb_spec (last_index width) 0) as [Hk0|Hk0]; [lia|].
      fold n in E.
      destruct (Z.ltb_spec (last_index width) (n - 1)) as [Hlt|Hge]; [lia|].
      split_entry E. fold n c. lia.
Qed.

Lemma index_in_copy_out_valid width s :
  1024 <= width ->
  Evaluator.index_in_copy_out width s
  = ([], Ok (Some (Evaluator.index_lists width), s)).
Proof.
  intros Hw. unfold Evaluator.index_in_copy_out.
  destruct (Z.ltb_spec width 1024); [lia|reflexivity].
Qed.

Lemma index_in_copy_out_small width s :
  width < 1024 ->
  Evaluator.index_in_copy_out width s
  = ([Print "Width is smaller than 1024. This is not enough to split"],
     Ok (None, s)).
Proof.
  intros Hw. unfold Evaluator.index_in_copy_out.
  destruct (Z.ltb_spec width 1024); [reflexivity|lia].
Qed.

Lemma range_cons lo hi : lo < hi -> range lo hi = lo :: range (lo + 1) hi.
Proof.
  intros H. unfold range.
  replace (Z.to_nat (hi - lo)) with (S (Z.to_nat (hi - (lo + 1)))) by lia.
  cbn [seq map]. f_equal; [lia|].
  rewrite <- seq_shift, map_map. apply map_ext. intros. lia.
Qed.

Lemma range_nil lo hi : hi <= lo -> range lo hi = [].
Proof.
  intros H. unfold range. now replace (Z.to_nat (hi - lo)) with 0%nat by lia.
Qed.

(** Steps of one width [c] from [c * lo] on, closed by a last range. *)
Lemma partitions_steps c m lo last hi :
  0 < c -> lo <= m -> last = c * m -> last < hi ->
  partitions (c * lo)
    (map (fun i => c * i) (range lo m) ++ [last])
    (map (fun i => c * (i + 1)) (range lo m) ++ [hi]) hi.
Proof.
  intros Hc Hlo Hlast Hhi.
  remember (Z.to_nat (m - lo)) as d eqn:Hd. revert lo Hlo Hd.
  induction d as [|d IH]; intros lo Hlo Hd.
  - rewrite range_nil by lia. cbn. replace lo with m by lia. lia.
  - rewrite range_cons by lia. cbn [map app partitions].
    split; [reflexivity|]. split; [nia|].
    apply IH; lia.
Qed.

(** X7: for every dimension above one tile width the output ranges, taken
    in order, partition the axis: each begins where the one before ended,
    none is empty, the first begins at 0 and the last ends at the
    dimension. *)
Lemma output_ranges_partition width :
  1024 < width ->
  partitions 0 (Evaluator.outsidx (Evaluator.index_lists width))
               (Evaluator.outeidx (Evaluator.index_lists width)) width.
Proof.
  intros Hw.
  destruct (nwids_bounds width ltac:(lia)) as (Hn & Hlo & Hhi).
  destruct (cpwid_bounds width ltac:(lia)) as ((Hc0 & Hc1) & Hc2).
  unfold Evaluator.index_lists. rewrite fold_interior.
  cbn [Evaluator.outsidx Evaluator.outeidx Evaluator.append6 app partitions].
  split; [reflexivity|]. split; [lia|].
  set (c := Evaluator.cpwid_of width) in *.
  set (n := Evaluator.nwids_of width) in *.
  replace c with (c * 1) at 1 by lia.
  apply partitions_steps; lia.
Qed.

(** C2, at the failing input: for the dimension 1024 the partitioner
    returns two tiles whose output ranges are both [0, 1024), so the ranges
    do not partition [0, 1024) and every cell lies in two placements. *)
Theorem output_ranges_overlap_at_1024 (s : Evaluator.t) :
  exists ix,
    Evaluator.index_in_copy_out 1024 s = ([], Ok (Some ix, s)) /\
    Evaluator.outsidx ix = [0; 0] /\
    Evaluator.outeidx ix = [1024; 1024] /\
    ~ partitions 0 (Evaluator.outsidx ix) (Evaluator.outeidx ix) 1024.
Proof.
  exists (Evaluator.index_lists 1024).
  split; [apply index_in_copy_out_valid; lia|].
  split; [reflexivity|]. split; [reflexivity|].
  cbn. lia.
Qed.

(** X8: the last tile, for every dimension of at least 1024: its crop ends
    at the end of the window and is as wide as its output range, the
    remainder, which is positive; the output range ends at the end of the
    axis; and the crop starts at [1024 - rest]. *)
Lemma last_tile_shape width :
  1024 <= width ->
  let ix := Evaluator.index_lists width in
  let k := last_index width in
  getitem (Evaluator.cpsidx ix) k = 1024 - rest_of width /\
  getitem (Evaluator.cpeidx ix) k = 1024 /\
  getitem (Evaluator.outsidx ix) k = width - rest_of width /\
  getitem (Evaluator.outeidx ix) k = width /\
  0 < rest_of width.
Proof.
  intros Hw ix k. subst ix k.
  destruct (last_index_bounds width Hw) as (Hl1 & Hl2 & Hl3).
  pose proof (rest_positive width Hw) as Hr.
  entry_of E width Hw (last_index width).
  destruct (Z.eqb_spec (last_index width) 0) as [Hk0|Hk0]; [lia|].
  destruct (Z.ltb_spec (last_index width) (Evaluator.nwids_of width - 1))
    as [Hlt|Hge]; [lia|].
  split_entry E. unfold rest_of. repeat apply conj; lia.
Qed.

(** C5, at the failing input: for the dimension 4091 the remainder is
    1025, more than a window holds, and the crop of the last tile starts
    at -1, outside the window. *)
Theorem last_tile_crop_negative_at_4091 (s : Evaluator.t) :
  exists ix,
    Evaluator.index_in_copy_out 4091 s = ([], Ok (Some ix, s)) /\
    rest_of 4091 = 1025 /\
    getitem (Evaluator.cpsidx ix) (last_index 4091) = -1 /\
    getitem (Evaluator.cpeidx ix) (last_index 4091) = 1024 /\
    getitem (Evaluator.outsidx ix) (last_index 4091) = 3066 /\
    getitem (Evaluator.outeidx ix) (last_index 4091) = 4091.
Proof.
  exists (Evaluator.index_lists 4091).
  split; [apply index_in_copy_out_valid; lia|].
  repeat apply conj; vm_compute; reflexivity.
Qed.

(** C9: for a valid dimension the partitioner is a function of the
    dimension alone.  Whatever the instance holds it returns the same six
    lists, it prints nothing and leaves the instance as it was; so two calls,
    in a row or from different states, give identical index sequences. *)
Theorem index_in_copy_out_deterministic
    (width : Z) (s1 s2 : Evaluator.t) :
  1024 <= width ->
  exists ix,
    Evaluator.index_in_copy_out width s1 = ([], Ok (Some ix, s1)) /\
    Evaluator.index_in_copy_out width s2 = ([], Ok (Some ix, s2)) /\
    (a <~ Evaluator.index_in_copy_out width ;;
     b <~ Evaluator.index_in_copy_out width ;;
     Evaluator.ret (a, b)) s1
    = ([], Ok ((Some ix, Some ix), s1)).
Proof.
  intros Hw. exists (Evaluator.index_lists width).
  split; [now apply index_in_copy_out_valid|].
  split; [now apply index_in_copy_out_valid|].
  unfold Evaluator.bind.
  rewrite !index_in_copy_out_valid by assumption. reflexivity.
Qed.

Lemma index_in_copy_out_deterministic_witness :
  exists ix,
    Evaluator.index_in_copy_out 2048 sample_evaluator
    = ([], Ok (Some ix, sample_evaluator)) /\
    Evaluator.index_in_copy_out 2048
      (Evaluator.set_need_dice true sample_evaluator)
    = ([], Ok (Some ix, Evaluator.set_need_dice true sample_evaluator)) /\
    (a <~ Evaluator.index_in_copy_out 2048 ;;
     b <~ Evaluator.index_in_copy_out 2048 ;;
     Evaluator.ret (a, b)) sample_evaluator
    = ([], Ok ((Some ix, Some ix), sample_evaluator)).
Proof.
  apply (index_in_copy_out_deterministic 2048). lia.
Defined.

(** C6: a dimension below 1024 is rejected.  The partitioner prints its
    message and returns [None] instead of index lists; the stitcher, given a
    batch with a spatial dimension below 1024, fails on unpacking that
    [None] with the partitioner's message as its only output, before any
    tile is read and before the model is called. *)
Theorem small_dimension_rejected
    (width : Z) (m : model) (data : batch) (s : Evaluator.t) :
  (width < 1024 ->
   Evaluator.index_in_copy_out width s
   = ([Print "Width is smaller than 1024. This is not enough to split"],
      Ok (None, s))) /\
  (dim2 (image data) < 1024 \/ dim3 (image data) < 1024 ->
   Evaluator.predict_samples_large m data s
   = ([Print "Width is smaller than 1024. This is not enough to split"],
      Raise TypeError)).
Proof.
  split; [apply index_in_copy_out_small|].
  intros Hsmall. unfold Evaluator.predict_samples_large, Evaluator.bind.
  destruct (Z_lt_le_dec (dim2 (image data)) 1024) as [H2|H2].
  - rewrite index_in_copy_out_small by assumption. reflexivity.
  - rewrite index_in_copy_out_valid by assumption. cbn.
    rewrite index_in_copy_out_small by lia. reflexivity.
Qed.

Lemma small_dimension_rejected_witness :
  1000 < 1024 /\
  Evaluator.index_in_copy_out 1000 sample_evaluator
  = ([Print "Width is smaller than 1024. This is not enough to split"],
     Ok (None, sample_evaluator)) /\
  dim3 (constant_image 2048 512 0) < 1024 /\
  Evaluator.predict_samples_large (fun t => Ok (Tensor t))
    (mkBatch (constant_image 2048 512 0) None ["a"%string]) sample_evaluator
  = ([Print "Width is smaller than 1024. This is not enough to split"],
     Raise TypeError).
Proof.
  pose proof (small_dimension_rejected 1000 (fun t => Ok (Tensor t))
                (mkBatch (constant_image 2048 512 0) None ["a"%string])
                sample_evaluator) as [H1 H2].
  assert (Hw : 1000 < 1024) by lia.
  assert (Hd : dim3 (constant_image 2048 512 0) < 1024) by (cbn; lia).
  split; [exact Hw|]. split; [exact (H1 Hw)|].
  split; [exact Hd|]. apply H2. right. exact Hd.
Defined.

(** ** Border trimming and finalization *)

Lemma trim_shape {A} (b : Z) (a : ndarray A) :
  0 < b -> 0 <= rows a -> 0 <= cols a ->
  rows (trim b a) = Z.max 0 (rows a - 2 * b) /\
  cols (trim b a) = Z.max 0 (cols a - 2 * b) /\
  (forall i j, 0 <= i < rows (trim b a) -> 0 <= j < cols (trim b a) ->
     cell (trim b a) i j = cell a (i + b) (j + b)).
Proof.
  intros Hb Hr Hc. unfold trim.
  destruct (Z.eqb_spec b 0) as [|_]; [lia|].
  unfold slice01, slice_len, slice_start, clip. cbn [rows cols cell].
  destruct (Z.ltb_spec b 0); [lia|].
  destruct (Z.ltb_spec (- b) 0); [|lia].
  split; [lia|]. split; [lia|].
  intros i j Hi Hj. f_equal; lia.
Qed.

Lemma cut_border_trim {A} (a : ndarray A) (s : Evaluator.t) :
  Evaluator.cut_border (Some a) s
  = ([], Ok (Some (trim (Evaluator.border s) a), s)).
Proof.
  unfold Evaluator.cut_border, Evaluator.bind, Evaluator.gets, trim. cbn.
  destruct (Evaluator.border s =? 0); reflexivity.
Qed.

(** C10: with a border of 0 [cut_border] returns the array it was given;
    with a border [b > 0] it drops [b] rows and [b] columns on each side
    and nothing else: each of the two leading dimensions [d] becomes
    [d - 2 b] (0 when [d] does not exceed [2 b], an empty result), and the
    cell at [(i, j)] of the result is the cell at [(i + b, j + b)] of the
    array, whatever lies along its trailing axes.  The instance is left
    unchanged and nothing is printed. *)
Theorem cut_border_spec {A : Type}
    (a : ndarray A) (s0 s : Evaluator.t) :
  Evaluator.border s0 = 0 -> 0 < Evaluator.border s ->
  0 <= rows a -> 0 <= cols a ->
  Evaluator.cut_border (Some a) s0 = ([], Ok (Some a, s0)) /\
  exists a',
    Evaluator.cut_border (Some a) s = ([], Ok (Some a', s)) /\
    rows a' = Z.max 0 (rows a - 2 * Evaluator.border s) /\
    cols a' = Z.max 0 (cols a - 2 * Evaluator.border s) /\
    (2 * Evaluator.border s <= rows a ->
     rows a' = rows a - 2 * Evaluator.border s) /\
    (2 * Evaluator.border s <= cols a ->
     cols a' = cols a - 2 * Evaluator.border s) /\
    (0 < rows a' /\ 0 < cols a' <->
     2 * Evaluator.border s < rows a /\ 2 * Evaluator.border s < cols a) /\
    (forall i j, 0 <= i < rows a' -> 0 <= j < cols a' ->
       cell a' i j = cell a (i + Evaluator.border s) (j + Evaluator.border s)).
Proof.
  intros H0 Hb Hr Hc. split.
  - rewrite cut_border_trim, H0. reflexivity.
  - exists (trim (Evaluator.border s) a).
    split; [apply cut_border_trim|].
    destruct (trim_shape (Evaluator.border s) a Hb Hr Hc) as (E1 & E2 & E3).
    repeat apply conj; try assumption; lia.
Qed.

Lemma cut_border_spec_witness :
  let a := mkArray 100 80 (fun i j => [IZR i; IZR j]) in
  Evaluator.border degenerate_evaluator = 0 /\
  0 < Evaluator.border sample_evaluator /\
  Evaluator.cut_border (Some a) degenerate_evaluator
  = ([], Ok (Some a, degenerate_evaluator)) /\
  exists a',
    Evaluator.cut_border (Some a) sample_evaluator
    = ([], Ok (Some a', sample_evaluator)) /\
    rows a' = 76 /\ cols a' = 56 /\
    cell a' 0 0 = [IZR 12; IZR 12].
Proof.
  intros a.
  assert (H0 : Evaluator.border degenerate_evaluator = 0) by reflexivity.
  assert (Hb : 0 < Evaluator.border sample_evaluator) by (cbn; lia).
  destruct (cut_border_spec a degenerate_evaluator sample_evaluator H0 Hb
              ltac:(cbn; lia) ltac:(cbn; lia))
    as (Hid & a' & Hcut & Hrows & Hcols & _ & _ & _ & Hcell).
  split; [exact H0|]. split; [exact Hb|]. split; [exact Hid|].
  exists a'. split; [exact Hcut|].
  split; [exact Hrows|]. split; [exact Hcols|].
  rewrite Hcell by (rewrite ?Hrows, ?Hcols; cbn; lia). reflexivity.
Defined.

(** *** Running the methods: equations of the monad *)

Section MonadEquations.

Import Evaluator.

Context {A B : Type}.

Lemma bind_ret (a : A) (k : A -> M B) s : bind (ret a) k s = k a s.
Proof. unfold bind, ret. now destruct (k a s). Qed.

Lemma bind_gets (f : t -> A) (k : A -> M B) s :
  bind (gets f) k s = k (f s) s.
Proof. unfold bind, gets. now destruct (k (f s) s). Qed.

Lemma bind_modify (f : t -> t) (k : unit -> M B) s :
  bind (modify f) k s = k tt (f s).
Proof. unfold bind, modify. now destruct (k tt (f s)). Qed.

Lemma bind_emit (e : event) (k : unit -> M B) s :
  bind (emit e) k s = (e :: fst (k tt s), snd (k tt s)).
Proof. unfold bind, emit. now destruct (k tt s). Qed.

Lemma bind_raise (e : exn) (k : A -> M B) s :
  bind (raise e) k s = ([], Raise e).
Proof. reflexivity. Qed.

Lemma bind_lift (r : result A) (k : A -> M B) s :
  bind (lift r) k s
  = match r with Ok a => k a s | Raise e => ([], Raise e) end.
Proof. unfold bind, lift. destruct r as [a|e]; [now destruct (k a s)|easy]. Qed.

Lemma bind_run (m : M A) (k : A -> M B) s out a s' :
  m s = (out, Ok (a, s')) ->
  bind m k s = (out ++ fst (k a s'), snd (k a s')).
Proof. intros E. unfold bind. rewrite E. now destruct (k a s'). Qed.

Lemma bind_fail (m : M A) (k : A -> M B) s out e :
  m s = (out, Raise e) -> bind m k s = (out, Raise e).
Proof. intros E. unfold bind. now rewrite E. Qed.

End MonadEquations.

Lemma bind_assoc {A B C} (m : Evaluator.M A) (f : A -> Evaluator.M B)
    (g : B -> Evaluator.M C) s :
  Evaluator.bind (Evaluator.bind m f) g s
  = Evaluator.bind m (fun x => Evaluator.bind (f x) g) s.
Proof.
  unfold Evaluator.bind. destruct (m s) as [out [[a s']|e]]; [|reflexivity].
  destruct (f a s') as [out1 [[b s1]|e]]; [|reflexivity].
  destruct (g b s1) as [out2 r]. now rewrite app_assoc.
Qed.

Lemma when_true (m : Evaluator.M unit) : Evaluator.when true m = m.
Proof. reflexivity. Qed.

Lemma when_false (m : Evaluator.M unit) :
  Evaluator.when false m = Evaluator.ret tt.
Proof. reflexivity. Qed.

(** Reading the attributes of an instance written field by field. *)
Ltac fields :=
  cbn [Evaluator.config Evaluator.folds Evaluator.test Evaluator.flips
       Evaluator.num_workers Evaluator.full_image Evaluator.full_mask
       Evaluator.current_mask Evaluator.full_pred Evaluator.border
       Evaluator.prev_name Evaluator.on_new Evaluator.show_mask
       Evaluator.need_dice Evaluator.dice_scores
       Evaluator.set_full_image Evaluator.set_full_mask
       Evaluator.set_full_pred Evaluator.set_prev_name
       Evaluator.set_show_mask Evaluator.set_need_dice Evaluator.set_dice
       option_map fst snd app].

Ltac run :=
  repeat (first
    [ rewrite bind_assoc | rewrite bind_ret | rewrite bind_gets
    | rewrite bind_modify | rewrite bind_emit | rewrite bind_raise
    | rewrite bind_lift | rewrite when_true | rewrite when_false
    | progress fields ]).

(** The same without the rule for [emit], which [emit_then] replaces when
    the events are known. *)
Ltac run0 :=
  repeat (first
    [ rewrite bind_assoc | rewrite bind_ret | rewrite bind_gets
    | rewrite bind_modify | rewrite bind_raise
    | rewrite bind_lift | rewrite when_true | rewrite when_false
    | progress fields ]).

Lemma emit_then {B} (e : event) (k : unit -> Evaluator.M B) s out r :
  k tt s = (out, r) -> Evaluator.bind (Evaluator.emit e) k s = (e :: out, r).
Proof. intros E. rewrite bind_emit, E. reflexivity. Qed.

Lemma bind_inv {A B} (m : Evaluator.M A) (k : A -> Evaluator.M B)
    s out b s' :
  Evaluator.bind m k s = (out, Ok (b, s')) ->
  exists out1 a s1 out2,
    m s = (out1, Ok (a, s1)) /\ k a s1 = (out2, Ok (b, s')) /\
    out = out1 ++ out2.
Proof.
  unfold Evaluator.bind. destruct (m s) as [out1 [[a s1]|e]]; [|discriminate].
  destruct (k a s1) as [out2 r] eqn:E. intros H. injection H as <- ->.
  now exists out1, a, s1, out2.
Qed.

Lemma cut_border_run {A B} (o : option (ndarray A))
    (k : option (ndarray A) -> Evaluator.M B) (s : Evaluator.t) :
  (o = None -> Evaluator.border s = 0) ->
  Evaluator.bind (Evaluator.cut_border o) k s
  = k (option_map (trim (Evaluator.border s)) o) s.
Proof.
  intros H. unfold Evaluator.cut_border. run.
  destruct o as [a|]; unfold trim; cbn [option_map].
  - destruct (Evaluator.border s =? 0); now run.
  - rewrite H by reflexivity. cbn [Z.eqb]. now run.
Qed.

Lemma on_image_constructed_degenerate
    (save : option string -> string -> Evaluator.M unit)
    (prefix : string) (s : Evaluator.t) (pred msk : ndarray R) :
  Evaluator.full_pred s = Some pred ->
  Evaluator.full_mask s = Some msk ->
  any_positive_pred (trim (Evaluator.border s) pred) = false ->
  any_positive_mask (trim (Evaluator.border s) msk) = false ->
  Evaluator.on_image_constructed save prefix s = ([], Ok (tt, trimmed s)).
Proof.
  intros Hp Hm Hnp Hnm.
  unfold any_positive_pred in Hnp. unfold any_positive_mask in Hnm.
  destruct s as [cfg fl tst fps nw img fmask cmask fpred b pn onw sm nd dc].
  cbn in Hp, Hm, Hnp, Hnm. subst fpred fmask.
  unfold Evaluator.on_image_constructed, Evaluator.score, trimmed.
  run. rewrite cut_border_run by easy. run.
  destruct img as [im|]; run;
    rewrite ?cut_border_run by easy; run;
    rewrite ?cut_border_run by easy; run;
    rewrite Hnp, Hnm; cbn [orb]; run; reflexivity.
Qed.

Lemma Rgtb_true x y : (y < x)%R -> Rgtb x y = true.
Proof. intros H. unfold Rgtb. destruct (Rlt_dec y x); [reflexivity|lra]. Qed.

Lemma Rgtb_false x y : (x <= y)%R -> Rgtb x y = false.
Proof. intros H. unfold Rgtb. destruct (Rlt_dec y x); [lra|reflexivity]. Qed.

Lemma Rgeb_true x y : (y <= x)%R -> Rgeb x y = true.
Proof. intros H. unfold Rgeb. destruct (Rle_dec y x); [reflexivity|lra]. Qed.

Lemma Rgeb_false x y : (x < y)%R -> Rgeb x y = false.
Proof. intros H. unfold Rgeb. destruct (Rle_dec y x); [lra|reflexivity]. Qed.

Lemma flatten_one_cell v : flatten (one_cell v) = [v].
Proof. reflexivity. Qed.

Lemma one_cell_negative :
  any_positive_pred (one_cell 0) = false /\
  any_positive_mask (one_cell 0) = false.
Proof.
  unfold any_positive_pred, any_positive_mask, np_any.
  rewrite flatten_one_cell. cbn [existsb].
  rewrite Rgtb_false, Rgeb_false by lra. split; reflexivity.
Qed.

(** C4, as the code has it: when an image is finalized with a mask and a
    prediction that hold no positive value, [on_image_constructed] trims the
    arrays and returns at once.  It appends no score, and it emits nothing:
    neither [visualize] nor [save] is called, whatever [save] is. *)
Theorem degenerate_image_not_emitted
    (save : option string -> string -> Evaluator.M unit)
    (prefix : string) (s : Evaluator.t) (pred msk : ndarray R) :
  Evaluator.full_pred s = Some pred ->
  Evaluator.full_mask s = Some msk ->
  any_positive_pred (trim (Evaluator.border s) pred) = false ->
  any_positive_mask (trim (Evaluator.border s) msk) = false ->
  Evaluator.on_image_constructed save prefix s = ([], Ok (tt, trimmed s)) /\
  Evaluator.dice_scores (trimmed s) = Evaluator.dice_scores s.
Proof.
  intros Hp Hm Hnp Hnm. split; [|reflexivity].
  now apply on_image_constructed_degenerate with (pred := pred) (msk := msk).
Qed.

Lemma degenerate_image_not_emitted_witness :
  Evaluator.full_pred degenerate_evaluator = Some (one_cell 0) /\
  Evaluator.full_mask degenerate_evaluator = Some (one_cell 0) /\
  any_positive_pred (trim 0 (one_cell 0)) = false /\
  any_positive_mask (trim 0 (one_cell 0)) = false /\
  Evaluator.on_image_constructed recording_save "" degenerate_evaluator
  = ([], Ok (tt, trimmed degenerate_evaluator)) /\
  Evaluator.dice_scores (trimmed degenerate_evaluator)
  = Evaluator.dice_scores degenerate_evaluator.
Proof.
  destruct one_cell_negative as [Hp Hm].
  split; [reflexivity|]. split; [reflexivity|].
  split; [exact Hp|]. split; [exact Hm|].
  exact (degenerate_image_not_emitted recording_save "" degenerate_evaluator
           (one_cell 0) (one_cell 0) eq_refl eq_refl Hp Hm).
Defined.

(** C4 as stated fails: with [save_images] set, a degenerate image is not
    handed to [save], while the emitting tail of the method would have
    called it. *)
Lemma degenerate_image_emitted_counterexample :
  ~ emitted_as_scored recording_save "" degenerate_evaluator.
Proof.
  unfold emitted_as_scored.
  destruct one_cell_negative as [Hp Hm].
  rewrite (on_image_constructed_degenerate recording_save ""
             degenerate_evaluator (one_cell 0) (one_cell 0)
             eq_refl eq_refl Hp Hm).
  cbn. discriminate.
Qed.

(** ** What the methods emit and how they change the instance *)

Section Respects.

Import Evaluator.

(** [P] constrains the events a method emits, [R] relates the instance
    before a method to the instance after it. *)
Variable P : event -> Prop.
Variable R : t -> t -> Prop.
Hypothesis R_refl : forall s, R s s.
Hypothesis R_trans : forall s1 s2 s3, R s1 s2 -> R s2 s3 -> R s1 s3.

Lemma respects_ret {A} (a : A) : respects P R (ret a).
Proof.
  intros s. split; [constructor|]. intros a' s' E. injection E as _ <-.
  apply R_refl.
Qed.

Lemma respects_gets {A} (f : t -> A) : respects P R (gets f).
Proof.
  intros s. split; [constructor|]. intros a' s' E. injection E as _ <-.
  apply R_refl.
Qed.

Lemma respects_raise {A} (e : exn) : respects P R (@raise A e).
Proof. intros s. split; [constructor|]. intros a s' E. discriminate E. Qed.

Lemma respects_lift {A} (r : result A) : respects P R (lift r).
Proof.
  intros s. destruct r as [a|e]; (split; [constructor|]); intros a' s' E.
  - injection E as _ <-. apply R_refl.
  - discriminate E.
Qed.

Lemma respects_emit (e : event) : P e -> respects P R (emit e).
Proof.
  intros He s. split; [repeat constructor; exact He|].
  intros a s' E. injection E as _ <-. apply R_refl.
Qed.

Lemma respects_modify (f : t -> t) :
  (forall s, R s (f s)) -> respects P R (modify f).
Proof.
  intros Hf s. split; [constructor|]. intros a s' E. injection E as _ <-.
  apply Hf.
Qed.

Lemma respects_bind {A B} (m : M A) (k : A -> M B) :
  respects P R m -> (forall a, respects P R (k a)) -> respects P R (bind m k).
Proof.
  intros Hm Hk s. destruct (Hm s) as [Hout Hst]. unfold bind.
  destruct (m s) as [out [[a s1]|e]]; cbn [fst snd] in *.
  - destruct (Hk a s1) as [Hout1 Hst1].
    destruct (k a s1) as [out1 r]; cbn [fst snd] in *.
    split; [apply Forall_app; now split|].
    intros b s' E. eapply R_trans; [now apply (Hst a s1)|now apply (Hst1 b)].
  - split; [exact Hout|]. intros b s' E. discriminate E.
Qed.

Lemma respects_when (b : bool) (m : M unit) :
  respects P R m -> respects P R (when b m).
Proof. destruct b; [easy|]. intros _. apply respects_ret. Qed.

Lemma respects_for_each {A} (l : list A) (body : A -> M unit) :
  (forall x, In x l -> respects P R (body x)) -> respects P R (for_each l body).
Proof.
  induction l as [|x l IH]; intros H; cbn [for_each].
  - apply respects_ret.
  - apply respects_bind; [apply H; now left|].
    intros _. apply IH. intros y Hy. apply H. now right.
Qed.

End Respects.

Section Methods.

Import Evaluator.

(** The methods of the base class emit every kind of event but
    [TorchLoad] only through [read_model], and touch the scores only by
    appending to them.  So a constraint [P] that every event other than a
    load satisfies, and a relation [R] that holds whenever the scores
    were only extended, are respected by the whole loop as soon as the
    two methods of the subclass respect them. *)
Variable P : event -> Prop.
Variable R : t -> t -> Prop.
Hypothesis R_refl : forall s, R s s.
Hypothesis R_trans : forall s1 s2 s3, R s1 s2 -> R s2 s3 -> R s1 s3.
Hypothesis P_own : forall e, (forall f, e <> TorchLoad f) -> P e.
Hypothesis R_frame :
  forall s s' c, dice_scores s' = dice_scores s ++ c -> R s s'.

Variable weights : Config -> Z -> model.
Variable loader : bool -> list Z -> list batch.
Variable process_data : tensor -> model -> batch -> string -> M unit.
Variable save : option string -> string -> M unit.
Hypothesis process_data_respects :
  forall predicted m data prefix,
    respects P R (process_data predicted m data prefix).
Hypothesis save_respects :
  forall name prefix, respects P R (save name prefix).

Local Ltac frame :=
  intros; apply R_frame with (c := []); now rewrite app_nil_r.

Local Ltac own := apply P_own; intros; discriminate.

Local Ltac resp :=
  repeat lazymatch goal with
  | |- respects _ _ (bind _ _) =>
      apply (respects_bind P R R_trans); [|intros ?]
  | |- respects _ _ (ret _) => apply (respects_ret P R R_refl)
  | |- respects _ _ (gets _) => apply (respects_gets P R R_refl)
  | |- respects _ _ (raise _) => apply (respects_raise P R)
  | |- respects _ _ (lift _) => apply (respects_lift P R R_refl)
  | |- respects _ _ (emit _) => apply (respects_emit P R R_refl); own
  | |- respects _ _ (modify _) => apply (respects_modify P R); frame
  | |- respects _ _ (when _ _) => apply (respects_when P R R_refl)
  | |- respects _ _ (process_data _ _ _ _) => apply process_data_respects
  | |- respects _ _ (save _ _) => apply save_respects
  | |- respects _ _ (match ?x with _ => _ end) => destruct x
  end.

Lemma respects_cut_border {A} (o : option (ndarray A)) :
  respects P R (cut_border o).
Proof. unfold cut_border. resp. Qed.

Lemma respects_predict_samples (m : model) (data : batch) :
  respects P R (predict_samples m data).
Proof. unfold predict_samples. resp. Qed.

Lemma respects_emit_result (prefix : string) :
  respects P R (emit_result save prefix).
Proof. unfold emit_result, visualize. resp. Qed.

Lemma respects_score : respects P R score.
Proof.
  unfold score. resp; try apply respects_cut_border.
  apply (respects_modify P R). intros s. eapply R_frame. reflexivity.
Qed.

Lemma respects_on_image_constructed (prefix : string) :
  respects P R (on_image_constructed save prefix).
Proof.
  unfold on_image_constructed.
  resp; try apply respects_cut_border; try apply respects_score;
    apply respects_emit_result.
Qed.

Lemma respects_on_batch (m : model) (prefix : string) (data : batch) :
  respects P R (on_batch process_data m prefix data).
Proof. unfold on_batch. resp. apply respects_predict_samples. Qed.

Lemma respects_read_model (fold : Z) :
  P (TorchLoad fold) -> respects P R (read_model weights fold).
Proof.
  intros H. unfold read_model. resp.
  apply (respects_emit P R R_refl). exact H.
Qed.

Lemma respects_on_fold (fold : Z) (val_index : list Z) (prefix : string) :
  P (TorchLoad fold) ->
  respects P R (on_fold weights loader process_data save fold val_index prefix).
Proof.
  intros H. unfold on_fold. resp.
  - now apply respects_read_model.
  - apply (respects_for_each P R R_refl R_trans). intros x _.
    apply respects_on_batch.
  - apply respects_on_image_constructed.
Qed.

Lemma respects_predict (skip_folds : option (list Z)) :
  (forall fold, skipped skip_folds fold = false -> P (TorchLoad fold)) ->
  respects P R (predict weights loader process_data save skip_folds).
Proof.
  intros H. unfold predict. resp.
  apply (respects_for_each P R R_refl R_trans). intros entry _.
  unfold predict_body.
  apply (respects_bind P R R_trans); [apply (respects_gets P R R_refl)|].
  intros tst. destruct (skipped skip_folds (fst entry)) eqn:E.
  - apply (respects_ret P R R_refl).
  - apply respects_on_fold. now apply H.
Qed.

End Methods.

(** ** Skipped folds *)

Lemma bind_ext {A B} (m : Evaluator.M A) (k k' : A -> Evaluator.M B) s :
  (forall a s', k a s' = k' a s') ->
  Evaluator.bind m k s = Evaluator.bind m k' s.
Proof.
  intros H. unfold Evaluator.bind.
  destruct (m s) as [out [[a s']|e]]; [|reflexivity]. now rewrite H.
Qed.

Lemma predict_body_skipped weights loader process_data save skip entry s :
  existsb (Z.eqb (fst entry)) skip = true ->
  Evaluator.predict_body weights loader process_data save (Some skip) entry s
  = ([], Ok (tt, s)).
Proof.
  intros E. unfold Evaluator.predict_body, Evaluator.skipped.
  rewrite E. now run.
Qed.

Lemma predict_body_kept weights loader process_data save skip entry s :
  existsb (Z.eqb (fst entry)) skip = false ->
  Evaluator.predict_body weights loader process_data save (Some skip) entry s
  = Evaluator.predict_body weights loader process_data save None entry s.
Proof.
  intros E. unfold Evaluator.predict_body, Evaluator.skipped.
  now rewrite E.
Qed.

Lemma for_each_skip weights loader process_data save skip l s :
  Evaluator.for_each l
    (Evaluator.predict_body weights loader process_data save (Some skip)) s
  = Evaluator.for_each
      (filter (fun entry => negb (existsb (Z.eqb (fst entry)) skip)) l)
      (Evaluator.predict_body weights loader process_data save None) s.
Proof.
  revert s. induction l as [|entry l IH]; intros s; [reflexivity|].
  cbn [Evaluator.for_each filter].
  destruct (existsb (Z.eqb (fst entry)) skip) eqn:E; cbn [negb].
  - rewrite (bind_run _ _ s [] tt s)
      by now apply predict_body_skipped.
    cbn [app]. rewrite <- surjective_pairing. apply IH.
  - cbn [Evaluator.for_each].
    rewrite (bind_ext _ _
               (fun _ => Evaluator.for_each
                  (filter (fun entry => negb (existsb (Z.eqb (fst entry)) skip)) l)
                  (Evaluator.predict_body weights loader process_data save None)))
      by (intros _ s'; apply IH).
    unfold Evaluator.bind at 1 2. now rewrite predict_body_kept.
Qed.

Lemma not_loading_kept skip fold :
  Evaluator.skipped (Some skip) fold = false ->
  not_loading skip (TorchLoad fold).
Proof.
  intros E f Hin Heq. injection Heq as ->. cbn in E.
  assert (existsb (Z.eqb f) skip = true); [|congruence].
  apply existsb_exists. exists f. split; [exact Hin|apply Z.eqb_refl].
Qed.

(** C8: with [skip_folds] given, [predict] does on the instance exactly what
    the loop body of a run without [skip_folds] does on the folds whose index
    is not in the set, one after the other: the folds of the set are passed
    over, the others are processed as usual.  For a subclass whose
    [process_data] and [save] do not themselves load models, no model of a
    fold of the set is loaded at any point of the run. *)
Theorem skipped_folds_bypassed
    (weights : Config -> Z -> model) (loader : bool -> list Z -> list batch)
    (process_data : tensor -> model -> batch -> string -> Evaluator.M unit)
    (save : option string -> string -> Evaluator.M unit)
    (skip : list Z) (s : Evaluator.t) :
  (forall predicted m data prefix,
     respects (not_loading skip) any_change
       (process_data predicted m data prefix)) ->
  (forall name prefix, respects (not_loading skip) any_change (save name prefix)) ->
  Evaluator.predict weights loader process_data save (Some skip) s
  = Evaluator.for_each (kept_folds skip s)
      (Evaluator.predict_body weights loader process_data save None) s
  /\ Forall (not_loading skip)
       (fst (Evaluator.predict weights loader process_data save (Some skip) s)).
Proof.
  intros Hpd Hsave. split.
  - unfold Evaluator.predict, kept_folds. run. apply for_each_skip.
  - apply (respects_predict (not_loading skip) any_change);
      unfold any_change; try tauto.
    + intros e He f _. apply He.
    + intros fold. apply not_loading_kept.
Qed.

(** ** The sample subclass and the run over two folds *)

Section SampleSubclass.

Variable P : event -> Prop.
Variable R : Evaluator.t -> Evaluator.t -> Prop.
Hypothesis R_refl : forall s, R s s.
Hypothesis R_trans : forall s1 s2 s3, R s1 s2 -> R s2 s3 -> R s1 s3.
Hypothesis P_own : forall e, (forall f, e <> TorchLoad f) -> P e.
Hypothesis R_frame :
  forall s s' c,
    Evaluator.dice_scores s' = Evaluator.dice_scores s ++ c -> R s s'.

Lemma single_image_process_data_respects predicted m data prefix :
  respects P R (single_image_process_data predicted m data prefix).
Proof.
  unfold single_image_process_data.
  repeat (apply (respects_bind P R R_trans); [|intros _]);
    apply (respects_modify P R); intros s;
    apply R_frame with (c := []); now rewrite app_nil_r.
Qed.

Lemma recording_save_respects name prefix :
  respects P R (recording_save name prefix).
Proof.
  apply (respects_emit P R R_refl). apply P_own. intros f. discriminate.
Qed.

End SampleSubclass.

Lemma scores_extended_refl s : scores_extended s s.
Proof. exists []. now rewrite app_nil_r. Qed.

Lemma scores_extended_trans s1 s2 s3 :
  scores_extended s1 s2 -> scores_extended s2 s3 -> scores_extended s1 s3.
Proof.
  intros [c1 E1] [c2 E2]. exists (c1 ++ c2). now rewrite E2, E1, app_assoc.
Qed.

Lemma sigmoid_one : (1 / 2 < sigmoid 1)%R.
Proof.
  unfold sigmoid.
  assert (H0 : (0 < exp (- 1))%R) by apply exp_pos.
  assert (H1 : (exp (- 1) < 1)%R).
  { rewrite <- exp_0. apply exp_increasing. lra. }
  apply Rmult_lt_reg_r with (r := (1 + exp (- 1))%R); [lra|].
  rewrite Rinv_l by lra. lra.
Qed.

Lemma dice_agree : dice [true] [true] = Ok 0%R.
Proof. unfold dice, count. cbn. f_equal. lra. Qed.

Lemma dice_differ : dice [true] [false] = Ok 1%R.
Proof. unfold dice, count. cbn. f_equal. lra. Qed.

Lemma flatten_plane_constant v :
  flatten (plane (constant_image 1 1 v)) = [v].
Proof. reflexivity. Qed.

Lemma flatten_plane_squashed v :
  flatten (plane (to_numpy (Tensor (constant_image 1 1 v)))) = [sigmoid v].
Proof. reflexivity. Qed.

Ltac two_fold_start :=
  unfold two_fold, Evaluator.on_fold, Evaluator.read_model; run0;
  apply emit_then; run0;
  unfold two_fold_loader; cbn [map Evaluator.for_each Z.eqb];
  unfold Evaluator.on_batch at 1; run0;
  cbn [mask]; run0; unfold Evaluator.predict_samples; run0;
  unfold predict, identity_model;
  cbn [rbind image Z.gtb Z.compare flip.FLIP_NONE];
  run0; unfold single_image_process_data; run0;
  cbn [two_fold_config dbg negb andb mask]; run0;
  apply emit_then; run0;
  unfold Evaluator.on_image_constructed, Evaluator.score; run0;
  rewrite cut_border_run by easy; run0;
  rewrite cut_border_run by easy; run0;
  unfold trim; cbn [Z.eqb];
  unfold np_any; rewrite !flatten_plane_constant, !flatten_plane_squashed;
  cbn [map existsb];
  rewrite (Rgtb_true _ _ sigmoid_one); cbn [orb]; run0.

Ltac two_fold_end :=
  unfold Evaluator.emit_result; run0; cbn [dbg save_images]; run0;
  reflexivity.

(** One fold of the run: the model is loaded, the progress bar shows the
    mean of the scores so far, the image is scored (1 in fold 0, where
    prediction and mask agree, 0 in fold 1) and the mean of all the scores
    of the instance is printed. *)
Lemma two_fold_run (i : Z) (s : Evaluator.t) :
  two_fold_ready s -> i = 0 \/ i = 1 ->
  exists s',
    two_fold i s
    = ([TorchLoad i; SetPostfix (np_mean (Evaluator.dice_scores s));
        PrintMean (np_mean (Evaluator.dice_scores s
                              ++ [if i =? 0 then 1 else 0]%R))],
       Ok (tt, s')) /\
    two_fold_ready s' /\
    Evaluator.dice_scores s'
    = Evaluator.dice_scores s ++ [if i =? 0 then 1 else 0]%R /\
    Evaluator.need_dice s' = true.
Proof.
  intros (Hc & Hb & Hf & Ht & Hi) Hi01.
  destruct s as [cfg fl tst fps nw img fmask cmask fpred b pn onw sm nd dc].
  cbn in Hc, Hb, Hf, Ht, Hi. subst.
  destruct Hi01 as [-> | ->]; cbn [Z.eqb]; eexists; split.
  - two_fold_start. rewrite Rgeb_true by lra. rewrite dice_agree. run0.
    replace (1 - 0)%R with 1%R by lra. two_fold_end.
  - cbn. unfold two_fold_ready. cbn. tauto.
  - two_fold_start. rewrite Rgeb_false by lra. rewrite dice_differ. run0.
    replace (1 - 1)%R with 0%R by lra. two_fold_end.
  - cbn. unfold two_fold_ready. cbn. tauto.
Qed.

Lemma two_fold_on_fold (i : Z) (s : Evaluator.t) :
  two_fold i s
  = Evaluator.on_fold (fun _ _ => identity_model) two_fold_loader
      single_image_process_data recording_save i [i] "" s.
Proof. reflexivity. Qed.

Lemma two_fold_evaluator_ready : two_fold_ready two_fold_evaluator.
Proof. unfold two_fold_ready. cbn. tauto. Qed.

Lemma two_fold_after_first_ready :
  two_fold_ready two_fold_after_first /\
  Evaluator.dice_scores two_fold_after_first = [1%R].
Proof.
  destruct (two_fold_run 0 two_fold_evaluator two_fold_evaluator_ready
              (or_introl eq_refl)) as (s' & E & Hr & Hd & _).
  unfold two_fold_after_first. rewrite E. cbn [snd]. split; [exact Hr|].
  exact Hd.
Qed.

Lemma not_loading_own skip e :
  (forall f : Z, e <> TorchLoad f) -> not_loading skip e.
Proof. intros H f _. apply H. Qed.

Lemma any_change_frame (s s' : Evaluator.t) (c : list R) :
  Evaluator.dice_scores s' = Evaluator.dice_scores s ++ c -> any_change s s'.
Proof. intros _. exact I. Qed.

Lemma skipped_folds_bypassed_witness :
  (forall predicted m data prefix,
     respects (not_loading [0]) any_change
       (single_image_process_data predicted m data prefix)) /\
  (forall name prefix,
     respects (not_loading [0]) any_change (recording_save name prefix)) /\
  kept_folds [0] two_fold_evaluator = [(1, ([0], [1]))] /\
  Evaluator.predict (fun _ _ => identity_model) two_fold_loader
    single_image_process_data recording_save (Some [0]) two_fold_evaluator
  = Evaluator.for_each (kept_folds [0] two_fold_evaluator)
      (Evaluator.predict_body (fun _ _ => identity_model) two_fold_loader
         single_image_process_data recording_save None) two_fold_evaluator
  /\ Forall (not_loading [0])
       (fst (Evaluator.predict (fun _ _ => identity_model) two_fold_loader
               single_image_process_data recording_save (Some [0])
               two_fold_evaluator)).
Proof.
  assert (Hpd : forall predicted m data prefix,
            respects (not_loading [0]) any_change
              (single_image_process_data predicted m data prefix)).
  { intros. apply single_image_process_data_respects.
    - intros s1 s2 s3 _ _. exact I.
    - apply any_change_frame. }
  assert (Hsave : forall name prefix,
            respects (not_loading [0]) any_change (recording_save name prefix)).
  { intros. apply recording_save_respects.
    - intros s. exact I.
    - apply not_loading_own. }
  split; [exact Hpd|]. split; [exact Hsave|]. split; [reflexivity|].
  exact (skipped_folds_bypassed (fun _ _ => identity_model) two_fold_loader
           single_image_process_data recording_save [0] two_fold_evaluator
           Hpd Hsave).
Defined.

(** With fold 0 skipped, the run over the two folds loads the model of
    fold 1 only, and the mean it prints is that of the scores of the
    instance and of the score of fold 1. *)
Lemma skip_first_fold_trace (s : Evaluator.t) :
  two_fold_ready s ->
  Evaluator.folds s = [([1], [0]); ([0], [1])] ->
  fst (Evaluator.predict (fun _ _ => identity_model) two_fold_loader
         single_image_process_data recording_save (Some [0]) s)
  = [TorchLoad 1; SetPostfix (np_mean (Evaluator.dice_scores s));
     PrintMean (np_mean (Evaluator.dice_scores s ++ [0%R]))].
Proof.
  intros Hr Hf.
  destruct (two_fold_run 1 s Hr (or_intror eq_refl)) as (s' & E & _).
  unfold two_fold in E. destruct Hr as (_ & _ & _ & Ht & _).
  unfold Evaluator.predict. rewrite bind_gets, Hf.
  rewrite for_each_skip.
  change (Evaluator.enumerate [([1], [0]); ([0], [1])])
    with [(0, ([1], [0])); (1, ([0], [1]))].
  cbn [filter existsb fst Z.eqb negb orb Evaluator.for_each].
  unfold Evaluator.predict_body.
  cbn [Evaluator.skipped fst snd]. rewrite bind_assoc, bind_gets, Ht.
  rewrite (bind_run _ _ _ _ _ _ E). cbn [Z.eqb]. reflexivity.
Qed.

(** ** The mean a fold reports *)

Lemma fold_tail_run (s : Evaluator.t) out s' :
  (nd <~ Evaluator.gets Evaluator.need_dice ;;
   Evaluator.when nd
     (d <~ Evaluator.gets Evaluator.dice_scores ;;
      Evaluator.emit (PrintMean (np_mean d)))) s = (out, Ok (tt, s')) ->
  s' = s /\
  (Evaluator.need_dice s = true ->
   out = [PrintMean (np_mean (Evaluator.dice_scores s))]).
Proof.
  rewrite bind_gets. destruct (Evaluator.need_dice s).
  - rewrite when_true, bind_gets. unfold Evaluator.emit.
    intros E. injection E as <- <-. now split.
  - rewrite when_false. unfold Evaluator.ret.
    intros E. injection E as <- <-. split; [reflexivity|discriminate].
Qed.

Lemma on_fold_last_event weights loader process_data save
    fold val_index prefix s out s' :
  Evaluator.on_fold weights loader process_data save fold val_index prefix s
  = (out, Ok (tt, s')) ->
  Evaluator.need_dice s' = true ->
  exists out',
    out = out' ++ [PrintMean (np_mean (Evaluator.dice_scores s'))].
Proof.
  unfold Evaluator.on_fold. intros E Hnd.
  apply bind_inv in E as (o1 & [] & s1 & o1' & _ & E & ->).
  apply bind_inv in E as (o2 & tst & s2 & o2' & _ & E & ->).
  apply bind_inv in E as (o3 & m & s3 & o3' & _ & E & ->).
  apply bind_inv in E as (o4 & [] & s4 & o4' & _ & E & ->).
  apply bind_inv in E as (o5 & [] & s5 & o5' & _ & E & ->).
  apply fold_tail_run in E as [-> Hout]. rewrite (Hout Hnd).
  exists (o1 ++ o2 ++ o3 ++ o4 ++ o5). now rewrite <- !app_assoc.
Qed.

Lemma any_event_own e : (forall f : Z, e <> TorchLoad f) -> any_event e.
Proof. intros _. exact I. Qed.

Lemma scores_extended_frame (s s' : Evaluator.t) (c : list R) :
  Evaluator.dice_scores s' = Evaluator.dice_scores s ++ c ->
  scores_extended s s'.
Proof. intros E. now exists c. Qed.

(** X1: the list of scores belongs to the instance, not to the fold.  For
    a subclass whose [process_data] and [save] only add
    scores, a fold that ends on an instance asking for scores has kept all
    the scores it started from, and the last thing it prints is the mean of
    the whole list: the scores of the earlier folds followed by those
    collected in this fold.  Over a whole [predict] the list is never
    emptied either. *)
Theorem fold_reports_accumulated_mean
    (weights : Config -> Z -> model) (loader : bool -> list Z -> list batch)
    (process_data : tensor -> model -> batch -> string -> Evaluator.M unit)
    (save : option string -> string -> Evaluator.M unit) :
  (forall predicted m data prefix,
     respects any_event scores_extended
       (process_data predicted m data prefix)) ->
  (forall name prefix,
     respects any_event scores_extended (save name prefix)) ->
  (forall fold val_index prefix s out s',
     Evaluator.on_fold weights loader process_data save fold val_index prefix s
     = (out, Ok (tt, s')) ->
     Evaluator.need_dice s' = true ->
     exists collected out',
       Evaluator.dice_scores s' = Evaluator.dice_scores s ++ collected /\
       out = out' ++
             [PrintMean (np_mean (Evaluator.dice_scores s ++ collected))]) /\
  (forall skip_folds s out s',
     Evaluator.predict weights loader process_data save skip_folds s
     = (out, Ok (tt, s')) ->
     exists collected,
       Evaluator.dice_scores s' = Evaluator.dice_scores s ++ collected).
Proof.
  intros Hpd Hsave. split.
  - intros fold val_index prefix s out s' E Hnd.
    destruct (respects_on_fold any_event scores_extended
                scores_extended_refl scores_extended_trans
                any_event_own scores_extended_frame
                weights loader process_data save Hpd Hsave
                fold val_index prefix I s) as [_ Hext].
    destruct (Hext tt s') as [collected Hc]; [now rewrite E|].
    destruct (on_fold_last_event _ _ _ _ _ _ _ _ _ _ E Hnd) as [out' ->].
    exists collected, out'. split; [exact Hc|]. now rewrite Hc.
  - intros skip_folds s out s' E.
    destruct (respects_predict any_event scores_extended
                scores_extended_refl scores_extended_trans
                any_event_own scores_extended_frame
                weights loader process_data save Hpd Hsave
                skip_folds (fun _ _ => I) s) as [_ Hext].
    apply (Hext tt s'). now rewrite E.
Qed.

Lemma fold_reports_accumulated_mean_witness :
  (forall predicted m data prefix,
     respects any_event scores_extended
       (single_image_process_data predicted m data prefix)) /\
  (forall name prefix,
     respects any_event scores_extended (recording_save name prefix)) /\
  exists out s',
    Evaluator.on_fold (fun _ _ => identity_model) two_fold_loader
      single_image_process_data recording_save 1 [1] "" two_fold_after_first
    = (out, Ok (tt, s')) /\
    Evaluator.need_dice s' = true /\
    exists collected out',
      Evaluator.dice_scores s'
      = Evaluator.dice_scores two_fold_after_first ++ collected /\
      out = out' ++
            [PrintMean
               (np_mean (Evaluator.dice_scores two_fold_after_first
                           ++ collected))].
Proof.
  assert (Hpd : forall predicted m data prefix,
            respects any_event scores_extended
              (single_image_process_data predicted m data prefix)).
  { intros. apply single_image_process_data_respects.
    - apply scores_extended_trans.
    - apply scores_extended_frame. }
  assert (Hsave : forall name prefix,
            respects any_event scores_extended (recording_save name prefix)).
  { intros. apply recording_save_respects.
    - apply scores_extended_refl.
    - apply any_event_own. }
  split; [exact Hpd|]. split; [exact Hsave|].
  destruct (two_fold_run 1 two_fold_after_first
              (proj1 two_fold_after_first_ready) (or_intror eq_refl))
    as (s' & E & _ & _ & Hnd).
  rewrite two_fold_on_fold in E.
  eexists _, s'. split; [exact E|]. split; [exact Hnd|].
  exact (proj1 (fold_reports_accumulated_mean (fun _ _ => identity_model)
                  two_fold_loader single_image_process_data recording_save
                  Hpd Hsave)
           1 [1] ""%string two_fold_after_first _ s' E Hnd).
Defined.

(** The mean a fold prints is not the mean of its own scores: fold 1 of
    the run collects the single score 0, and the mean it prints is 1/2, the
    mean of the score 1 of fold 0 and of its own score. *)
Lemma fold_reports_own_mean_counterexample :
  ~ reports_own_mean (two_fold 1) two_fold_after_first.
Proof.
  intros H.
  destruct two_fold_after_first_ready as [Hr Hd].
  destruct (two_fold_run 1 two_fold_after_first Hr (or_intror eq_refl))
    as (s' & E & _ & Hd' & Hnd).
  destruct (H _ _ E Hnd) as (collected & Hc & Hlast).
  rewrite Hd' in Hc. apply app_inv_head in Hc. subst collected.
  rewrite Hd in Hlast. cbn in Hlast. injection Hlast as Hlast. lra.
Qed.

(** ** The test-time augmentation predictor *)





Lemma as_tensors_map ps : as_tensors (map Tensor ps) = Ok ps.
Proof.
  induction ps as [|p ps IH]; [reflexivity|].
  cbn [map as_tensors]. rewrite IH. reflexivity.
Qed.

(** With flips, [predict] stacks the variants as the model gave them and
    squashes their mean. *)
Lemma predict_variants (m : model) (batch : tensor) (flips : Z)
    (ps : list tensor) :
  flip.FLIP_NONE < flips ->
  tta_variants m batch flips = Ok ps ->
  predict m batch flips
  = (new_mask <- mean_stack (map Tensor ps) ;;
     Ok (to_numpy (Tensor new_mask))).
Proof.
  intros Hf. unfold tta_variants, augmentations, predict.
  destruct (Z.gtb_spec flips flip.FLIP_NONE) as [_|]; [|lia].
  destruct (flips >? flip.FLIP_LR);
    cbn [map collect variant fst snd aug_none aug_lr aug_ud aug_lr_ud
         flip_tensor_lr flip_tensor_ud tensor_of rbind];
    repeat match goal with
           | |- context [m ?x] =>
               destruct (m x) as [[?|? ?]|?];
               cbn [rbind tensor_of flip_tensor_lr flip_tensor_ud]
           end;
    intros H; try discriminate H; injection H as <-; reflexivity.
Qed.

Lemma collect_length {A} (rs : list (result A)) (l : list A) :
  collect rs = Ok l -> List.length l = List.length rs.
Proof.
  revert l. induction rs as [|r rs IH]; intros l; cbn [collect].
  - intros E. now injection E as <-.
  - destruct r as [a|]; [|discriminate]. cbn [rbind].
    destruct (collect rs) as [l'|]; [|discriminate]. cbn [rbind].
    intros E. injection E as <-. cbn [List.length]. now rewrite (IH l').
Qed.

Lemma same_shape_refl t : same_shape t t = true.
Proof. unfold same_shape. now rewrite !Z.eqb_refl. Qed.

(** X3: with flips, [predict] averages the variants as the model returned
    them and squashes the mean: a cell of the result is the sigmoid of the
    mean of the raw values of the two ([FLIP_LR]) or four ([FLIP_FULL])
    variants at that cell.  Variants that are not all of one shape make
    [torch.stack] raise. *)
Theorem predict_squashes_mean (m : model) (batch : tensor) (flips : Z)
    (ps : list tensor) (p0 : tensor) :
  flip.FLIP_NONE < flips ->
  tta_variants m batch flips = Ok ps ->
  hd_error ps = Some p0 ->
  (List.length ps = 2%nat \/ List.length ps = 4%nat) /\
  (forallb (same_shape p0) ps = true ->
   exists r,
     predict m batch flips = Ok r /\ same_shape r p0 = true /\
     forall n c h w,
       item r n c h w
       = sigmoid (sum_cells ps n c h w / INR (List.length ps))) /\
  (forallb (same_shape p0) ps = false ->
   predict m batch flips = Raise RuntimeError).
Proof.
  intros Hf Hv Hhd. split.
  - apply collect_length in Hv. rewrite Hv, length_map.
    unfold augmentations.
    destruct (flips >? flip.FLIP_LR); [now right|].
    destruct (Z.gtb_spec flips flip.FLIP_NONE); [now left|lia].
  - rewrite (predict_variants m batch flips ps Hf Hv).
    unfold mean_stack. rewrite as_tensors_map. cbn [rbind].
    destruct ps as [|p ps']; [discriminate|]. injection Hhd as ->.
    split; intros Hs; rewrite Hs; [|reflexivity].
    eexists. split; [reflexivity|]. split; [exact (same_shape_refl p0)|].
    reflexivity.
Qed.

Lemma predict_squashes_mean_witness :
  flip.FLIP_NONE < flip.FLIP_LR /\
  exists p1 p2,
    tta_variants first_cell_model two_cells flip.FLIP_LR = Ok [p1; p2] /\
    forallb (same_shape p1) [p1; p2] = true /\
    exists r,
      predict first_cell_model two_cells flip.FLIP_LR = Ok r /\
      same_shape r p1 = true /\
      forall n c h w,
        item r n c h w
        = sigmoid (sum_cells [p1; p2] n c h w / INR 2).
Proof.
  assert (Hf : flip.FLIP_NONE < flip.FLIP_LR) by reflexivity.
  split; [exact Hf|]. eexists _, _.
  split; [reflexivity|]. split; [reflexivity|].
  exact (proj1 (proj2 (predict_squashes_mean first_cell_model two_cells
                         flip.FLIP_LR _ _ Hf eq_refl eq_refl))
           eq_refl).
Defined.

Lemma squash_mean_differs :
  sigmoid 1 <> ((sigmoid 0 + (sigmoid 2 + 0)) / INR 2)%R.
Proof.
  unfold sigmoid. simpl INR.
  assert (Ht0 : (0 < exp (Ropp 1))%R) by apply exp_pos.
  assert (Ht1 : (exp (Ropp 1) < 1)%R).
  { pose proof (exp_increasing (Ropp 1) 0 ltac:(lra)) as Hlt.
    now rewrite exp_0 in Hlt. }
  replace (Ropp 0) with 0%R by lra. rewrite exp_0.
  replace (Ropp 2) with (Ropp 1 + Ropp 1)%R by lra. rewrite exp_plus.
  set (t := exp (Ropp 1)) in *. intros H.
  assert (E : ((t - 1) * ((t - 1) * (t - 1)) = 0)%R).
  { apply (f_equal (fun x => (x * (1 + t) * (1 + t * t) * 4)%R)) in H.
    field_simplify in H; [|nra|lra]. nra. }
  assert (Hne : (t - 1 <> 0)%R) by lra.
  apply Rmult_integral in E as [E|E]; [lra|].
  apply Rmult_integral in E as [E|E]; lra.
Qed.

(** The order matters: for a model whose two variants are 0 and 2 at a
    cell, [predict] returns the sigmoid of their mean 1, which is not the
    mean of their sigmoids. *)
Lemma predict_not_mean_of_squashed :
  exists ps r,
    tta_variants first_cell_model two_cells flip.FLIP_LR = Ok ps /\
    predict first_cell_model two_cells flip.FLIP_LR = Ok r /\
    item r 0 0 0 0 = sigmoid 1 /\
    item r 0 0 0 0 <> mean_of_squashed ps 0 0 0 0.
Proof.
  eexists _, _. split; [reflexivity|]. split; [reflexivity|].
  assert (E : forall x y : R, x = y -> sigmoid x = sigmoid y)
    by (intros x y ->; reflexivity).
  assert (Hm : ((0 + (2 + 0)) / INR 2 = 1)%R) by (simpl INR; lra).
  split.
  - cbn [item to_numpy F_sigmoid]. apply E. exact Hm.
  - cbn [item to_numpy F_sigmoid]. unfold mean_of_squashed, sum_cells.
    cbn [map F_sigmoid item fold_right List.length].
    intros H. apply squash_mean_differs.
    etransitivity; [|exact H]. apply E. symmetry. exact Hm.
Qed.

(** ** Flips *)

Lemma length_rev_range n :
  0 <= n -> Z.of_nat (List.length (rev (range 0 n))) = n.
Proof. intros H. rewrite length_rev, range_length. lia. Qed.

Lemma flip_lr_shape t :
  0 <= dim3 t ->
  dim3 (index_select3 t (rev (range 0 (dim3 t)))) = dim3 t.
Proof. intros H. cbn [index_select3 dim3]. now apply length_rev_range. Qed.

Lemma flip_ud_shape t :
  0 <= dim2 t ->
  dim2 (index_select2 t (rev (range 0 (dim2 t)))) = dim2 t.
Proof. intros H. cbn [index_select2 dim2]. now apply length_rev_range. Qed.

Lemma flip_lr_item t n c h w :
  0 <= w < dim3 t ->
  item (index_select3 t (rev (range 0 (dim3 t)))) n c h w
  = item t n c h (dim3 t - 1 - w).
Proof.
  intros H. cbn [index_select3 item]. now rewrite getitem_rev_range.
Qed.

Lemma flip_ud_item t n c h w :
  0 <= h < dim2 t ->
  item (index_select2 t (rev (range 0 (dim2 t)))) n c h w
  = item t n c (dim2 t - 1 - h) w.
Proof.
  intros H. cbn [index_select2 item]. now rewrite getitem_rev_range.
Qed.

(** X4: [flip_tensor_lr] mirrors the last axis and [flip_tensor_ud] the one
    before it, keeping the shape; each is its own inverse, and the two
    commute. *)
Theorem flips_round_trip (t : tensor) :
  0 <= dim2 t -> 0 <= dim3 t ->
  exists lr ud lr_lr ud_ud lr_ud ud_lr,
    flip_tensor_lr (Tensor t) = Ok lr /\
    flip_tensor_ud (Tensor t) = Ok ud /\
    flip_tensor_lr (Tensor lr) = Ok lr_lr /\
    flip_tensor_ud (Tensor ud) = Ok ud_ud /\
    flip_tensor_ud (Tensor lr) = Ok lr_ud /\
    flip_tensor_lr (Tensor ud) = Ok ud_lr /\
    same_shape lr t = true /\ same_shape ud t = true /\
    (forall n c h w, in_bounds t n c h w ->
       item lr n c h w = item t n c h (dim3 t - 1 - w) /\
       item ud n c h w = item t n c (dim2 t - 1 - h) w) /\
    agree lr_lr t /\ agree ud_ud t /\ agree lr_ud ud_lr.
Proof.
  intros H2 H3.
  assert (Hlr := flip_lr_shape t H3). assert (Hud := flip_ud_shape t H2).
  set (lr := index_select3 t (rev (range 0 (dim3 t)))) in *.
  set (ud := index_select2 t (rev (range 0 (dim2 t)))) in *.
  exists lr, ud, (index_select3 lr (rev (range 0 (dim3 lr)))),
    (index_select2 ud (rev (range 0 (dim2 ud)))),
    (index_select2 lr (rev (range 0 (dim2 lr)))),
    (index_select3 ud (rev (range 0 (dim3 ud)))).
  do 6 (split; [reflexivity|]).
  split; [|split; [|split; [|split; [|split]]]].
  - unfold same_shape. rewrite Hlr. subst lr.
    cbn [index_select3 dim0 dim1 dim2]. now rewrite !Z.eqb_refl.
  - unfold same_shape. rewrite Hud. subst ud.
    cbn [index_select2 dim0 dim1 dim3]. now rewrite !Z.eqb_refl.
  - intros n c h w (_ & _ & Hh & Hw). subst lr ud.
    now rewrite flip_lr_item, flip_ud_item.
  - assert (Hll := flip_lr_shape lr ltac:(lia)).
    unfold agree. repeat apply conj; try reflexivity.
    + now rewrite Hll.
    + intros n c h w Hb. unfold in_bounds in Hb. rewrite Hll, Hlr in Hb.
      destruct Hb as (_ & _ & _ & Hw).
      rewrite flip_lr_item by lia. rewrite Hlr. unfold lr.
      rewrite flip_lr_item by lia. f_equal. lia.
  - assert (Huu := flip_ud_shape ud ltac:(lia)).
    unfold agree. repeat apply conj; try reflexivity.
    + now rewrite Huu.
    + intros n c h w Hb. unfold in_bounds in Hb. rewrite Huu, Hud in Hb.
      destruct Hb as (_ & _ & Hh & _).
      rewrite flip_ud_item by lia. rewrite Hud. unfold ud.
      rewrite flip_ud_item by lia. f_equal. lia.
  - unfold agree. repeat split; reflexivity.
Qed.

Lemma flips_round_trip_witness :
  0 <= dim2 two_cells /\ 0 <= dim3 two_cells /\
  exists lr ud lr_lr ud_ud lr_ud ud_lr,
    flip_tensor_lr (Tensor two_cells) = Ok lr /\
    flip_tensor_ud (Tensor two_cells) = Ok ud /\
    flip_tensor_lr (Tensor lr) = Ok lr_lr /\
    flip_tensor_ud (Tensor ud) = Ok ud_ud /\
    flip_tensor_ud (Tensor lr) = Ok lr_ud /\
    flip_tensor_lr (Tensor ud) = Ok ud_lr /\
    same_shape lr two_cells = true /\ same_shape ud two_cells = true /\
    (forall n c h w, in_bounds two_cells n c h w ->
       item lr n c h w = item two_cells n c h (dim3 two_cells - 1 - w) /\
       item ud n c h w = item two_cells n c (dim2 two_cells - 1 - h) w) /\
    agree lr_lr two_cells /\ agree ud_ud two_cells /\ agree lr_ud ud_lr.
Proof.
  assert (H2 : 0 <= dim2 two_cells) by (cbn; lia).
  assert (H3 : 0 <= dim3 two_cells) by (cbn; lia).
  split; [exact H2|]. split; [exact H3|].
  exact (flips_round_trip two_cells H2 H3).
Defined.

Lemma agree_refl t : agree t t.
Proof. unfold agree. repeat split; reflexivity. Qed.

Lemma agree_trans a b c : agree a b -> agree b c -> agree a c.
Proof.
  intros (A0 & A1 & A2 & A3 & A) (B0 & B1 & B2 & B3 & B).
  unfold agree. repeat apply conj; try congruence.
  intros n ch h w Hb. rewrite A by exact Hb. apply B.
  unfold in_bounds in *. now rewrite <- A0, <- A1, <- A2, <- A3.
Qed.

Lemma mirror_lr_agree a b :
  0 <= dim3 b -> agree a b -> agree (mirror_lr a) (mirror_lr b).
Proof.
  intros H (A0 & A1 & A2 & A3 & A). unfold mirror_lr, agree.
  assert (Ha : 0 <= dim3 a) by lia.
  rewrite (flip_lr_shape a Ha), (flip_lr_shape b H).
  cbn [index_select3 dim0 dim1 dim2]. repeat apply conj; try assumption.
  intros n c h w Hb. unfold in_bounds in Hb.
  rewrite (flip_lr_shape a Ha) in Hb.
  cbn [index_select3 dim0 dim1 dim2] in Hb.
  destruct Hb as (Hn & Hc & Hh & Hw).
  rewrite !flip_lr_item by lia. rewrite A3. apply A.
  unfold in_bounds. repeat apply conj; lia.
Qed.

Lemma mirror_ud_agree a b :
  0 <= dim2 b -> agree a b -> agree (mirror_ud a) (mirror_ud b).
Proof.
  intros H (A0 & A1 & A2 & A3 & A). unfold mirror_ud, agree.
  assert (Ha : 0 <= dim2 a) by lia.
  rewrite (flip_ud_shape a Ha), (flip_ud_shape b H).
  cbn [index_select2 dim0 dim1 dim3]. repeat apply conj; try assumption.
  intros n c h w Hb. unfold in_bounds in Hb.
  rewrite (flip_ud_shape a Ha) in Hb.
  cbn [index_select2 dim0 dim1 dim3] in Hb.
  destruct Hb as (Hn & Hc & Hh & Hw).
  rewrite !flip_ud_item by lia. rewrite A2. apply A.
  unfold in_bounds. repeat apply conj; lia.
Qed.

Lemma mirror_lr_twice t : 0 <= dim3 t -> agree (mirror_lr (mirror_lr t)) t.
Proof.
  intros H. assert (Hs := flip_lr_shape t H). fold (mirror_lr t) in Hs.
  assert (Hss := flip_lr_shape (mirror_lr t) ltac:(lia)).
  fold (mirror_lr (mirror_lr t)) in Hss.
  unfold agree. repeat apply conj; try reflexivity; [congruence|].
  intros n c h w Hb. unfold in_bounds in Hb. rewrite Hss, Hs in Hb.
  destruct Hb as (_ & _ & _ & Hw).
  unfold mirror_lr at 1. rewrite flip_lr_item by lia. rewrite Hs.
  unfold mirror_lr. rewrite flip_lr_item by lia. f_equal. lia.
Qed.

Lemma mirror_ud_twice t : 0 <= dim2 t -> agree (mirror_ud (mirror_ud t)) t.
Proof.
  intros H. assert (Hs := flip_ud_shape t H). fold (mirror_ud t) in Hs.
  assert (Hss := flip_ud_shape (mirror_ud t) ltac:(lia)).
  fold (mirror_ud (mirror_ud t)) in Hss.
  unfold agree. repeat apply conj; try reflexivity; [congruence|].
  intros n c h w Hb. unfold in_bounds in Hb. rewrite Hss, Hs in Hb.
  destruct Hb as (_ & _ & Hh & _).
  unfold mirror_ud at 1. rewrite flip_ud_item by lia. rewrite Hs.
  unfold mirror_ud. rewrite flip_ud_item by lia. f_equal. lia.
Qed.

Lemma mirror_commute t : agree (mirror_lr (mirror_ud t)) (mirror_ud (mirror_lr t)).
Proof. unfold agree. repeat split; reflexivity. Qed.

Lemma mirror_four t :
  0 <= dim2 t -> 0 <= dim3 t ->
  agree (mirror_ud (mirror_lr (mirror_ud (mirror_lr t)))) t.
Proof.
  intros H2 H3.
  assert (Hll := mirror_lr_twice t H3).
  assert (D2 : dim2 (mirror_lr (mirror_lr t)) = dim2 t) by reflexivity.
  eapply agree_trans.
  { apply mirror_ud_agree; [|apply mirror_commute].
    cbn [mirror_ud mirror_lr index_select2 index_select3 dim2]. lia. }
  eapply agree_trans; [apply mirror_ud_twice; now rewrite D2|].
  exact Hll.
Qed.

Lemma agree_same_shape a b : agree a b -> same_shape b a = true.
Proof.
  intros (A0 & A1 & A2 & A3 & _). unfold same_shape.
  rewrite A0, A1, A2, A3. now rewrite !Z.eqb_refl.
Qed.

Lemma agree_in_bounds a b n c h w :
  agree a b -> in_bounds b n c h w -> in_bounds a n c h w.
Proof.
  intros (A0 & A1 & A2 & A3 & _). unfold in_bounds.
  now rewrite A0, A1, A2, A3.
Qed.

(** X5: for a model that returns its input, [predict] returns the sigmoid
    of the batch, cell by cell and in the shape of the batch, whatever the
    flips: each variant is flipped back to the batch, and the mean of equal
    variants is the variant. *)
Theorem predict_identity_model (batch : tensor) (flips : Z) :
  0 <= dim2 batch -> 0 <= dim3 batch ->
  exists r,
    predict identity_model batch flips = Ok r /\
    agree r (F_sigmoid batch).
Proof.
  intros H2 H3.
  assert (A2 := mirror_lr_twice batch H3).
  assert (A3 := mirror_ud_twice batch H2).
  assert (A4 := mirror_four batch H2 H3).
  unfold predict, identity_model.
  cbn [rbind flip_tensor_lr flip_tensor_ud].
  destruct (flips >? flip.FLIP_NONE);
    [|eexists; split; [reflexivity|apply agree_refl]].
  destruct (flips >? flip.FLIP_LR); cbn [rbind app];
    unfold mean_stack; cbn [as_tensors rbind forallb];
    fold (mirror_lr batch) in *; fold (mirror_lr (mirror_lr batch)) in *;
    fold (mirror_ud batch) in *; fold (mirror_ud (mirror_ud batch)) in *.
  - change (index_select2 (mirror_lr batch)
              (rev (range 0 (dim2 (mirror_lr batch)))))
      with (mirror_ud (mirror_lr batch)).
    fold (mirror_lr (mirror_ud (mirror_lr batch))).
    fold (mirror_ud (mirror_lr (mirror_ud (mirror_lr batch)))).
    rewrite same_shape_refl, (agree_same_shape _ _ A2),
      (agree_same_shape _ _ A3), (agree_same_shape _ _ A4).
    cbn [andb]. eexists. split; [reflexivity|].
    unfold agree. cbn [to_numpy F_sigmoid dim0 dim1 dim2 dim3 item].
    repeat apply conj; try reflexivity.
    intros n c h w Hb. change (in_bounds batch n c h w) in Hb.
    f_equal. unfold sum_cells. cbn [map fold_right List.length].
    assert (Hb2 := agree_in_bounds _ _ n c h w A2 Hb).
    assert (Hb3 := agree_in_bounds _ _ n c h w A3 Hb).
    assert (Hb4 := agree_in_bounds _ _ n c h w A4 Hb).
    destruct A2 as (_ & _ & _ & _ & A2), A3 as (_ & _ & _ & _ & A3),
      A4 as (_ & _ & _ & _ & A4).
    rewrite A2 by exact Hb2. rewrite A3 by exact Hb3.
    rewrite A4 by exact Hb4. simpl INR. field.
  - rewrite same_shape_refl, (agree_same_shape _ _ A2).
    cbn [andb]. eexists. split; [reflexivity|].
    unfold agree. cbn [to_numpy F_sigmoid dim0 dim1 dim2 dim3 item].
    repeat apply conj; try reflexivity.
    intros n c h w Hb. change (in_bounds batch n c h w) in Hb.
    f_equal. unfold sum_cells. cbn [map fold_right List.length].
    assert (Hb2 := agree_in_bounds _ _ n c h w A2 Hb).
    destruct A2 as (_ & _ & _ & _ & A2).
    rewrite A2 by exact Hb2. simpl INR. field.
Qed.

Lemma predict_identity_model_witness :
  0 <= dim2 two_cells /\ 0 <= dim3 two_cells /\
  exists r,
    predict identity_model two_cells flip.FLIP_FULL = Ok r /\
    agree r (F_sigmoid two_cells).
Proof.
  assert (H2 : 0 <= dim2 two_cells) by (cbn; lia).
  assert (H3 : 0 <= dim3 two_cells) by (cbn; lia).
  split; [exact H2|]. split; [exact H3|].
  exact (predict_identity_model two_cells flip.FLIP_FULL H2 H3).
Defined.

(** ** The tile stitcher *)

Lemma fold_result_invariant {A S} (I : list A -> S -> Prop)
    (body : S -> A -> result S) (l : list A) :
  (forall done x s, In x l -> I done s ->
     exists s', body s x = Ok s' /\ I (done ++ [x]) s') ->
  forall done s, I done s ->
    exists s', Evaluator.fold_result l body s = Ok s' /\ I (done ++ l) s'.
Proof.
  induction l as [|x l IH]; intros Hstep done s Hs; cbn [Evaluator.fold_result].
  - exists s. split; [reflexivity|]. now rewrite app_nil_r.
  - destruct (Hstep done x s (or_introl eq_refl) Hs) as (s1 & E1 & H1).
    rewrite E1. cbn [rbind].
    destruct (IH (fun d y t Hy => Hstep d y t (or_intror Hy)) _ _ H1)
      as (s' & E & H').
    exists s'. split; [exact E|]. now rewrite <- app_assoc in H'.
Qed.

Lemma bidx_inside d i : 0 <= i < d -> bidx d i = i.
Proof. intros H. unfold bidx. destruct (Z.eqb_spec d 1); lia. Qed.

Lemma broadcastable_same d : broadcastable d d = true.
Proof. unfold broadcastable. now rewrite Z.eqb_refl. Qed.

Lemma stitched_more img x y done done' p :
  (forall ij, In ij done' -> In ij done) ->
  stitched img x y done p -> stitched img x y done' p.
Proof.
  intros Hsub (D0 & D1 & D2 & D3 & Hc). unfold stitched.
  repeat apply conj; try assumption.
  intros n c h w Hb (i & j & Hin & Hh & Hw). apply Hc; [exact Hb|].
  exists i, j. split; [now apply Hsub|]. now split.
Qed.

Lemma stitch_cell_step (img : tensor) (flips : Z) (x y : Evaluator.indices)
    (i j : Z) (done : list (Z * Z)) (p : tensor) :
  dim1 img = 1 ->
  tile_ok (dim2 img) x i -> tile_ok (dim3 img) y j ->
  stitched img x y done p ->
  exists p',
    Evaluator.stitch_cell identity_model flips img x y i j p = Ok p' /\
    stitched img x y (done ++ [(i, j)]) p'.
Proof.
  intros Hch Hx Hy (D0 & D1 & D2 & D3 & Hc).
  unfold tile_ok in Hx, Hy. cbv zeta in Hx, Hy.
  destruct Hx as (X1 & X2 & X3 & X4 & X5 & X6 & X7).
  destruct Hy as (Y1 & Y2 & Y3 & Y4 & Y5 & Y6 & Y7).
  unfold Evaluator.stitch_cell.
  set (insx := getitem (Evaluator.insidx x) i) in *.
  set (inex := getitem (Evaluator.ineidx x) i) in *.
  set (cpsx := getitem (Evaluator.cpsidx x) i) in *.
  set (cpex := getitem (Evaluator.cpeidx x) i) in *.
  set (insy := getitem (Evaluator.insidx y) j) in *.
  set (iney := getitem (Evaluator.ineidx y) j) in *.
  set (cpsy := getitem (Evaluator.cpsidx y) j) in *.
  set (cpey := getitem (Evaluator.cpeidx y) j) in *.
  destruct (slice_inside (dim2 img) insx inex) as [Sx Lx]; [lia|lia|].
  destruct (slice_inside (dim3 img) insy iney) as [Sy Ly]; [lia|lia|].
  set (samples := slice23 img insx inex insy iney).
  assert (S2 : dim2 samples = 1024) by (cbn; lia).
  assert (S3 : dim3 samples = 1024) by (cbn; lia).
  destruct (predict_identity_model samples flips) as (pr & Epr & Apr);
    [lia|lia|].
  rewrite Epr. cbn [rbind].
  destruct Apr as (P0 & P1 & P2 & P3 & Pc).
  cbn [F_sigmoid dim0 dim1 dim2 dim3] in P0, P1, P2, P3.
  rewrite S2 in P2. rewrite S3 in P3.
  change (dim0 samples) with (dim0 img) in P0.
  change (dim1 samples) with (dim1 img) in P1.
  rewrite X6, X7, Y6, Y7.
  destruct (slice_inside (dim2 p) (insx + cpsx) (insx + cpex)) as [Ox Wx];
    [lia|lia|].
  destruct (slice_inside (dim3 p) (insy + cpsy) (insy + cpey)) as [Oy Wy];
    [lia|lia|].
  destruct (slice_inside (dim2 pr) cpsx cpex) as [Cx Kx]; [lia|lia|].
  destruct (slice_inside (dim3 pr) cpsy cpey) as [Cy Ky]; [lia|lia|].
  unfold setitem23. cbn [slice23 dim0 dim1 dim2 dim3].
  rewrite Ox, Wx, Oy, Wy, Kx, Ky, P0, P1, D0, D1, Hch.
  replace (insx + cpex - (insx + cpsx)) with (cpex - cpsx) by lia.
  replace (insy + cpey - (insy + cpsy)) with (cpey - cpsy) by lia.
  rewrite !broadcastable_same. cbn [andb].
  eexists. split; [reflexivity|].
  unfold stitched. cbn [dim0 dim1 dim2 dim3 item].
  repeat apply conj; try reflexivity; try assumption.
  intros n c h w Hb Hcov. unfold in_bounds in Hb.
  cbn [dim0 dim1 dim2 dim3] in Hb. destruct Hb as (Hn & Hcc & Hh & Hw).
  destruct ((insx + cpsx <=? h) && (h <? insx + cpsx + (cpex - cpsx)) &&
            (insy + cpsy <=? w) && (w <? insy + cpsy + (cpey - cpsy)))
    eqn:E.
  - apply andb_true_iff in E as [E E4]. apply andb_true_iff in E as [E E3].
    apply andb_true_iff in E as [E1 E2].
    apply Z.leb_le in E1, E3. apply Z.ltb_lt in E2, E4.
    rewrite !bidx_inside by lia. cbn [slice23 item]. rewrite Cx, Cy.
    rewrite Pc by (unfold in_bounds; rewrite P0, P1, P2, P3, Hch; lia).
    cbn [F_sigmoid item]. f_equal. unfold samples. cbn [slice23 item].
    rewrite Sx, Sy. f_equal; lia.
  - apply Hc; [unfold in_bounds; rewrite D0, D1; lia|].
    destruct Hcov as (i0 & j0 & Hin & Hh0 & Hw0).
    apply in_app_or in Hin as [Hin|[Heq|[]]].
    + now exists i0, j0.
    + injection Heq as <- <-. rewrite X6, X7 in Hh0. rewrite Y6, Y7 in Hw0.
      exfalso.
      assert (E1 : (insx + cpsx <=? h) = true) by (apply Z.leb_le; lia).
      assert (E2 : (h <? insx + cpsx + (cpex - cpsx)) = true)
        by (apply Z.ltb_lt; lia).
      assert (E3 : (insy + cpsy <=? w) = true) by (apply Z.leb_le; lia).
      assert (E4 : (w <? insy + cpsy + (cpey - cpsy)) = true)
        by (apply Z.ltb_lt; lia).
      rewrite E1, E2, E3, E4 in E. discriminate E.
Qed.

Lemma stitch_identity (img : tensor) (flips : Z) (x y : Evaluator.indices) :
  dim1 img = 1 ->
  tiles_fit (dim2 img) x -> tiles_fit (dim3 img) y ->
  exists canvas,
    Evaluator.stitch identity_model flips img x y = Ok canvas /\
    dim0 canvas = dim0 img /\ dim1 canvas = 1 /\
    dim2 canvas = dim2 img /\ dim3 canvas = dim3 img /\
    forall n c h w,
      in_bounds canvas n c h w ->
      item canvas n c h w = sigmoid (item img n c h w).
Proof.
  intros Hch [Hx Cx] [Hy Cy]. unfold Evaluator.stitch.
  set (xs := range 0 (Z.of_nat (List.length (Evaluator.insidx x)))).
  set (ys := range 0 (Z.of_nat (List.length (Evaluator.insidx y)))).
  destruct (fold_result_invariant
              (fun done p => stitched img x y (list_prod done ys) p)
              (fun predicted i =>
                 Evaluator.fold_result ys
                   (fun predicted j =>
                      Evaluator.stitch_cell identity_model flips img x y i j
                        predicted)
                   predicted)
              xs) with (done := @nil Z)
                       (s := zeros (dim0 img) 1 (dim2 img) (dim3 img))
    as (canvas & E & Hs).
  - intros done i p Hi Hp.
    destruct (fold_result_invariant
                (fun dj q =>
                   stitched img x y (list_prod done ys ++ map (pair i) dj) q)
                (fun predicted j =>
                   Evaluator.stitch_cell identity_model flips img x y i j
                     predicted)
                ys) with (done := @nil Z) (s := p) as (q & E & Hq).
    + intros dj j q Hj Hq.
      assert (Htx : tile_ok (dim2 img) x i)
        by (apply Hx; now apply in_range in Hi).
      assert (Hty : tile_ok (dim3 img) y j)
        by (apply Hy; now apply in_range in Hj).
      destruct (stitch_cell_step img flips x y i j
                  (list_prod done ys ++ map (pair i) dj) q Hch Htx Hty Hq)
        as (q' & E & Hq').
      exists q'. split; [exact E|].
      revert Hq'. apply stitched_more. intros ij Hin.
      rewrite map_app in Hin. cbn [map] in Hin.
      now rewrite app_assoc in Hin.
    + cbn [map]. now rewrite app_nil_r.
    + exists q. split; [exact E|].
      revert Hq. apply stitched_more. intros [a b] Hin.
      apply in_prod_iff in Hin as [Ha Hb]. cbn [app].
      apply in_or_app. apply in_app_or in Ha as [Ha|[<-|[]]].
      * left. now apply in_prod.
      * right. now apply in_map.
  - unfold stitched. cbn [zeros dim0 dim1 dim2 dim3 list_prod].
    repeat apply conj; try reflexivity.
    intros n c h w _ (i & j & [] & _).
  - exists canvas. split; [exact E|].
    destruct Hs as (D0 & D1 & D2 & D3 & Hc).
    repeat apply conj; try assumption.
    intros n c h w Hb. apply Hc; [exact Hb|].
    destruct Hb as (_ & _ & Hh & Hw). rewrite D2 in Hh. rewrite D3 in Hw.
    destruct (Cx h Hh) as (i & Hi & Hhi). destruct (Cy w Hw) as (j & Hj & Hwj).
    exists i, j. split; [|now split].
    cbn [app]. apply in_prod; now apply in_range.
Qed.

Lemma index_lists_fit (width : Z) :
  1024 <= width -> rest_of width <= 1024 ->
  tiles_fit width (Evaluator.index_lists width).
Proof.
  intros Hw Hr. unfold tiles_fit. cbv zeta.
  rewrite (index_lists_length width). split.
  - intros k Hk. apply tiles_ok; [exact Hw|exact Hr|lia].
  - intros x Hx. destruct (tiles_cover width x Hw Hx) as (k & Hk & Hc).
    exists k. split; [lia|exact Hc].
Qed.

(** X6: for a one-channel image whose two spatial dimensions are at least
    1024 and leave the last tile a remainder of at most 1024, and a model
    that returns its input, [predict_samples_large] prints nothing, leaves
    the instance as it was and returns a canvas of the shape of the image
    holding, at every position, the sigmoid of the image there: every
    position is written, and a position written by two tiles receives the
    same value from both. *)
Theorem stitcher_round_trip (data : batch) (s : Evaluator.t) :
  dim1 (image data) = 1 ->
  1024 <= dim2 (image data) -> rest_of (dim2 (image data)) <= 1024 ->
  1024 <= dim3 (image data) -> rest_of (dim3 (image data)) <= 1024 ->
  exists canvas,
    Evaluator.predict_samples_large identity_model data s
    = ([], Ok (canvas, s)) /\
    dim0 canvas = dim0 (image data) /\ dim1 canvas = 1 /\
    dim2 canvas = dim2 (image data) /\ dim3 canvas = dim3 (image data) /\
    forall n c h w,
      in_bounds canvas n c h w ->
      item canvas n c h w = sigmoid (item (image data) n c h w).
Proof.
  intros Hch H2 R2 H3 R3.
  destruct (stitch_identity (image data) (Evaluator.flips s)
              (Evaluator.index_lists (dim2 (image data)))
              (Evaluator.index_lists (dim3 (image data))) Hch
              (index_lists_fit _ H2 R2) (index_lists_fit _ H3 R3))
    as (canvas & E & Hc).
  exists canvas. split; [|exact Hc].
  unfold Evaluator.predict_samples_large.
  rewrite (bind_run _ _ _ _ _ _ (index_in_copy_out_valid _ s H2)).
  cbn [Evaluator.unpack app]. rewrite bind_ret.
  rewrite (bind_run _ _ _ _ _ _ (index_in_copy_out_valid _ s H3)).
  cbn [Evaluator.unpack app]. rewrite bind_ret, bind_gets.
  rewrite E. reflexivity.
Qed.

Lemma stitcher_round_trip_witness :
  let data := mkBatch (constant_image 2000 1500 0) None ["a"%string] in
  dim1 (image data) = 1 /\
  1024 <= dim2 (image data) /\ rest_of (dim2 (image data)) <= 1024 /\
  1024 <= dim3 (image data) /\ rest_of (dim3 (image data)) <= 1024 /\
  exists canvas,
    Evaluator.predict_samples_large identity_model data sample_evaluator
    = ([], Ok (canvas, sample_evaluator)) /\
    dim0 canvas = 1 /\ dim1 canvas = 1 /\
    dim2 canvas = 2000 /\ dim3 canvas = 1500 /\
    forall n c h w,
      in_bounds canvas n c h w ->
      item canvas n c h w = sigmoid (item (image data) n c h w).
Proof.
  intros data.
  assert (Hch : dim1 (image data) = 1) by reflexivity.
  assert (H2 : 1024 <= dim2 (image data)) by (cbn; lia).
  assert (R2 : rest_of (dim2 (image data)) <= 1024)
    by (apply Z.leb_le; vm_compute; reflexivity).
  assert (H3 : 1024 <= dim3 (image data)) by (cbn; lia).
  assert (R3 : rest_of (dim3 (image data)) <= 1024)
    by (apply Z.leb_le; vm_compute; reflexivity).
  split; [exact Hch|]. split; [exact H2|]. split; [exact R2|].
  split; [exact H3|]. split; [exact R3|].
  exact (stitcher_round_trip data sample_evaluator Hch H2 R2 H3 R3).
Defined.

(** ** More on the tile partitioner *)

Lemma output_ranges_partition_witness :
  1024 < 2500 /\
  partitions 0 (Evaluator.outsidx (Evaluator.index_lists 2500))
               (Evaluator.outeidx (Evaluator.index_lists 2500)) 2500.
Proof.
  assert (H : 1024 < 2500) by lia.
  split; [exact H|]. exact (output_ranges_partition 2500 H).
Defined.

Lemma last_tile_shape_witness :
  1024 <= 2500 /\
  let ix := Evaluator.index_lists 2500 in
  let k := last_index 2500 in
  getitem (Evaluator.cpsidx ix) k = 1024 - rest_of 2500 /\
  getitem (Evaluator.cpeidx ix) k = 1024 /\
  getitem (Evaluator.outsidx ix) k = 2500 - rest_of 2500 /\
  getitem (Evaluator.outeidx ix) k = 2500 /\
  0 < rest_of 2500.
Proof.
  assert (H : 1024 <= 2500) by lia.
  split; [exact H|]. exact (last_tile_shape 2500 H).
Defined.

Lemma rest_small (width : Z) :
  1024 <= width <= 4090 -> rest_of width <= 1024.
Proof.
  intros [Hw Hmax]. unfold rest_of.
  destruct (nwids_bounds width Hw) as (Hn & Hlo & Hhi).
  destruct (cpwid_quotient width Hw) as (Hq & Hc & Heven). cbv zeta in *.
  destruct (cpwid_even width Hw) as [h Hh].
  set (c := Evaluator.cpwid_of width) in *.
  set (n := Evaluator.nwids_of width) in *.
  set (q := width / n) in *.
  assert (Hn4 : n <= 4) by lia.
  assert (Hcases : n = 1 \/ n = 2 \/ n = 3 \/ n = 4) by lia.
  destruct Hc as [Hc|Hc];
    destruct Hcases as [Hn1 | [Hn1 | [Hn1 | Hn1]]]; rewrite Hn1 in *; lia.
Qed.

(** X9: for every dimension from 1024 to 4090 the partitioner returns
    tiles that fit: each window is 1024 wide and lies in the axis, each
    crop lies in its window and is placed where it was read, and every
    position of the axis lies in the output range of a tile.  (At 4091 the
    crop of the last tile starts before its window.) *)
Theorem tiles_fit_below_4091 (width : Z) (s : Evaluator.t) :
  1024 <= width <= 4090 ->
  exists ix,
    Evaluator.index_in_copy_out width s = ([], Ok (Some ix, s)) /\
    tiles_fit width ix.
Proof.
  intros Hw. exists (Evaluator.index_lists width). split.
  - apply index_in_copy_out_valid. lia.
  - apply index_lists_fit; [lia|]. now apply rest_small.
Qed.

Lemma first_tile (width : Z) :
  1024 <= width ->
  let ix := Evaluator.index_lists width in
  exists rest,
    range 0 (Z.of_nat (List.length (Evaluator.insidx ix))) = 0 :: rest /\
    getitem (Evaluator.insidx ix) 0 = 0 /\
    getitem (Evaluator.ineidx ix) 0 = 1024 /\
    getitem (Evaluator.cpsidx ix) 0 = 0 /\
    getitem (Evaluator.cpeidx ix) 0 = Evaluator.cpwid_of width /\
    getitem (Evaluator.outsidx ix) 0 = 0 /\
    getitem (Evaluator.outeidx ix) 0 = Evaluator.cpwid_of width.
Proof.
  intros Hw ix. subst ix.
  destruct (last_index_bounds width Hw) as (Hl1 & _).
  rewrite index_lists_length.
  exists (range (0 + 1) (last_index width + 1)).
  split; [apply range_cons; lia|].
  entry_of E width Hw 0. cbn [Z.eqb] in E. split_entry E.
  repeat apply conj; reflexivity.
Qed.

Lemma stitch_rejects_channels (img : tensor) (flips : Z) :
  dim1 img <> 1 -> 1024 <= dim2 img -> 1024 <= dim3 img ->
  Evaluator.stitch identity_model flips img
    (Evaluator.index_lists (dim2 img)) (Evaluator.index_lists (dim3 img))
  = Raise ValueError.
Proof.
  intros Hch H2 H3.
  destruct (first_tile _ H2) as (xs & Ex & X1 & X2 & X3 & X4 & X5 & X6).
  destruct (first_tile _ H3) as (ys & Ey & Y1 & Y2 & Y3 & Y4 & Y5 & Y6).
  cbv zeta in *.
  destruct (cpwid_bounds _ H2) as ((Cx0 & Cx1) & _).
  destruct (cpwid_bounds _ H3) as ((Cy0 & Cy1) & _).
  unfold Evaluator.stitch. rewrite Ex, Ey. cbn [Evaluator.fold_result].
  unfold Evaluator.stitch_cell at 1.
  rewrite X1, X2, X3, X4, X5, X6, Y1, Y2, Y3, Y4, Y5, Y6.
  set (samples := slice23 img 0 1024 0 1024).
  destruct (slice_inside (dim2 img) 0 1024) as [Sx Lx]; [lia|lia|].
  destruct (slice_inside (dim3 img) 0 1024) as [Sy Ly]; [lia|lia|].
  destruct (predict_identity_model samples flips)
    as (pr & Epr & (P0 & P1 & P2 & P3 & _)).
  { cbn. lia. } { cbn. lia. }
  rewrite Epr. cbn [rbind].
  unfold setitem23. cbn [slice23 zeros dim0 dim1 dim2 dim3].
  rewrite P1. cbn [F_sigmoid dim1 samples slice23].
  unfold broadcastable at 2.
  destruct (Z.eqb_spec (dim1 img) 1) as [|_]; [contradiction|].
  cbn [orb andb]. rewrite andb_false_r. cbn [andb rbind]. reflexivity.
Qed.

(** X10: the canvas of [predict_samples_large] has one channel.  For an
    image of any other number of channels and a model that returns its
    input, the first placement cannot be broadcast into the canvas: the
    method raises [ValueError], having printed nothing. *)
Theorem stitcher_rejects_channels (data : batch) (s : Evaluator.t) :
  dim1 (image data) <> 1 ->
  1024 <= dim2 (image data) -> 1024 <= dim3 (image data) ->
  Evaluator.predict_samples_large identity_model data s
  = ([], Raise ValueError).
Proof.
  intros Hch H2 H3.
  unfold Evaluator.predict_samples_large.
  rewrite (bind_run _ _ _ _ _ _ (index_in_copy_out_valid _ s H2)).
  cbn [Evaluator.unpack app]. rewrite bind_ret.
  rewrite (bind_run _ _ _ _ _ _ (index_in_copy_out_valid _ s H3)).
  cbn [Evaluator.unpack app]. rewrite bind_ret, bind_gets.
  rewrite stitch_rejects_channels by assumption. reflexivity.
Qed.

Lemma tiles_fit_below_4091_witness :
  1024 <= 4090 <= 4090 /\
  exists ix,
    Evaluator.index_in_copy_out 4090 sample_evaluator
    = ([], Ok (Some ix, sample_evaluator)) /\
    tiles_fit 4090 ix.
Proof.
  assert (H : 1024 <= 4090 <= 4090) by lia.
  split; [exact H|]. exact (tiles_fit_below_4091 4090 sample_evaluator H).
Defined.

Lemma stitcher_rejects_channels_witness :
  let data :=
    mkBatch (mkTensor 1 3 1024 2048 (fun _ _ _ _ => 0%R)) None ["a"%string] in
  dim1 (image data) <> 1 /\
  1024 <= dim2 (image data) /\ 1024 <= dim3 (image data) /\
  Evaluator.predict_samples_large identity_model data sample_evaluator
  = ([], Raise ValueError).
Proof.
  intros data.
  assert (Hch : dim1 (image data) <> 1) by (cbn; lia).
  assert (H2 : 1024 <= dim2 (image data)) by (cbn; lia).
  assert (H3 : 1024 <= dim3 (image data)) by (cbn; lia).
  split; [exact Hch|]. split; [exact H2|]. split; [exact H3|].
  exact (stitcher_rejects_channels data sample_evaluator Hch H2 H3).
Defined.

(** ** The stitcher for 2048 x 2048 images *)




(** ** Finalizing an image *)



(** X13: a fold whose loader yields no batch, on an instance that holds no
    prediction and has a border, loads its model and then fails: trimming
    the missing prediction in [on_image_constructed] raises [TypeError];
    nothing is saved and no mean is printed. *)
Theorem empty_fold_raises
    (weights : Config -> Z -> model) (loader : bool -> list Z -> list batch)
    (process_data : tensor -> model -> batch -> string -> Evaluator.M unit)
    (save : option string -> string -> Evaluator.M unit)
    (fold : Z) (val_index : list Z) (prefix : string) (s : Evaluator.t) :
  Evaluator.full_pred s = None -> Evaluator.border s <> 0 ->
  loader (Evaluator.test s) val_index = [] ->
  Evaluator.on_fold weights loader process_data save fold val_index prefix s
  = ([TorchLoad fold], Raise TypeError).
Proof.
  intros Hp Hb Hl.
  destruct s as [cfg fl tst fps nw img fmask cmask fpred b pn onw sm nd dc].
  cbn in Hp, Hb, Hl. subst fpred.
  unfold Evaluator.on_fold, Evaluator.read_model. run0.
  apply emit_then. run0. rewrite Hl. cbn [Evaluator.for_each]. run0.
  unfold Evaluator.on_image_constructed, Evaluator.cut_border. run0.
  destruct (Z.eqb_spec b 0) as [|_]; [contradiction|]. run0. reflexivity.
Qed.



Lemma empty_fold_raises_witness :
  Evaluator.full_pred sample_evaluator = None /\
  Evaluator.border sample_evaluator <> 0 /\
  (fun (_ : bool) (_ : list Z) => @nil batch)
    (Evaluator.test sample_evaluator) [0] = [] /\
  Evaluator.on_fold (fun _ _ => identity_model) (fun _ _ => [])
    single_image_process_data recording_save 0 [0] "" sample_evaluator
  = ([TorchLoad 0], Raise TypeError).
Proof.
  assert (Hb : Evaluator.border sample_evaluator <> 0) by (cbn; lia).
  split; [reflexivity|]. split; [exact Hb|]. split; [reflexivity|].
  exact (empty_fold_raises (fun _ _ => identity_model) (fun _ _ => [])
           single_image_process_data recording_save 0 [0] ""
           sample_evaluator eq_refl Hb eq_refl).
Defined.



(** ** Models that return a tuple *)

(** X15: a model whose output is a tuple is served only without flips.
    With [FLIP_NONE], [predict] squashes the first component of the tuple;
    with any flip, un-flipping the output of the second call reads [.data]
    of a tuple and raises [AttributeError]. *)
Theorem predict_tuple_model (m : model) (batch : tensor) (flips : Z)
    (first : tensor) (rest : list tensor) :
  (forall t, exists first' rest', m t = Ok (Tuple first' rest')) ->
  m batch = Ok (Tuple first rest) ->
  (flips <= flip.FLIP_NONE -> predict m batch flips = Ok (F_sigmoid first)) /\
  (flip.FLIP_NONE < flips -> predict m batch flips = Raise AttributeError).
Proof.
  intros Hall Hb. unfold predict. rewrite Hb. cbn [rbind].
  split; intros Hf.
  - destruct (Z.gtb_spec flips flip.FLIP_NONE); [lia|reflexivity].
  - destruct (Z.gtb_spec flips flip.FLIP_NONE); [|lia].
    cbn [flip_tensor_lr rbind].
    destruct (Hall (index_select3 batch (rev (range 0 (dim3 batch)))))
      as (f2 & r2 & E2).
    rewrite E2. reflexivity.
Qed.

Lemma predict_tuple_model_witness :
  let m : model := fun t => Ok (Tuple t [t]) in
  (forall t, exists first' rest', m t = Ok (Tuple first' rest')) /\
  m two_cells = Ok (Tuple two_cells [two_cells]) /\
  (flip.FLIP_FULL <= flip.FLIP_NONE ->
   predict m two_cells flip.FLIP_FULL = Ok (F_sigmoid two_cells)) /\
  (flip.FLIP_NONE < flip.FLIP_FULL ->
   predict m two_cells flip.FLIP_FULL = Raise AttributeError).
Proof.
  intros m.
  assert (Hall : forall t, exists first' rest', m t = Ok (Tuple first' rest'))
    by (intros t; now exists t, [t]).
  split; [exact Hall|]. split; [reflexivity|].
  exact (predict_tuple_model m two_cells flip.FLIP_FULL two_cells [two_cells]
           Hall eq_refl).
Defined.

(** ** Inference with one model *)

Lemma predict_samples_large_small (m : model) (data : batch) (s : Evaluator.t) :
  dim2 (image data) < 1024 \/ dim3 (image data) < 1024 ->
  Evaluator.predict_samples_large m data s
  = ([Print "Width is smaller than 1024. This is not enough to split"],
     Raise TypeError).
Proof.
  intros Hsmall. unfold Evaluator.predict_samples_large, Evaluator.bind.
  destruct (Z_lt_le_dec (dim2 (image data)) 1024) as [H2|H2].
  - rewrite index_in_copy_out_small by assumption. reflexivity.
  - rewrite index_in_copy_out_valid by assumption. cbn.
    rewrite index_in_copy_out_small by lia. reflexivity.
Qed.

(** X16: [onepredict] stitches every batch, so it needs images of at least
    1024 by 1024: when the first batch of the loader is smaller on one
    side, the run prints the message of the partitioner and stops with
    [TypeError] before [process_data], [save] or any score; and when the
    model cannot be loaded, the run stops with that error before any
    batch. *)
Theorem onepredict_small_image
    (read_onetrain_model : Config -> result model)
    (test_loader : bool -> list Z -> list batch)
    (process_data : tensor -> model -> batch -> string -> Evaluator.M unit)
    (save : option string -> string -> Evaluator.M unit)
    (s : Evaluator.t) :
  (forall m data rest,
     read_onetrain_model (Evaluator.config s) = Ok m ->
     test_loader (Evaluator.test s) (range 0 4) = data :: rest ->
     dim2 (image data) < 1024 \/ dim3 (image data) < 1024 ->
     Evaluator.onepredict read_onetrain_model test_loader process_data save s
     = ([Print "Width is smaller than 1024. This is not enough to split"],
        Raise TypeError)) /\
  (forall e,
     read_onetrain_model (Evaluator.config s) = Raise e ->
     Evaluator.onepredict read_onetrain_model test_loader process_data save s
     = ([], Raise e)).
Proof.
  destruct s as [cfg fl tst fps nw img fmask cmask fpred b pn onw sm nd dc].
  cbn [Evaluator.config Evaluator.test]. split.
  - intros m data rest Hm Hl Hsmall.
    unfold Evaluator.onepredict. run0. rewrite Hm, Hl.
    cbn [Evaluator.for_each]. run0.
    destruct (mask data); run0;
      rewrite (bind_fail _ _ _ _ _ (predict_samples_large_small m data _ Hsmall));
      reflexivity.
  - intros e He. unfold Evaluator.onepredict. run0. rewrite He. reflexivity.
Qed.

Lemma onepredict_small_image_witness :
  let data := mkBatch (constant_image 512 2048 0) None ["a"%string] in
  let read := fun _ : Config => Ok identity_model in
  let loader := fun (_ : bool) (_ : list Z) => [data] in
  read (Evaluator.config sample_evaluator) = Ok identity_model /\
  loader (Evaluator.test sample_evaluator) (range 0 4) = data :: [] /\
  (dim2 (image data) < 1024 \/ dim3 (image data) < 1024) /\
  Evaluator.onepredict read loader single_image_process_data recording_save
    sample_evaluator
  = ([Print "Width is smaller than 1024. This is not enough to split"],
     Raise TypeError).
Proof.
  intros data read loader.
  assert (Hsmall : dim2 (image data) < 1024 \/ dim3 (image data) < 1024)
    by (left; cbn; lia).
  split; [reflexivity|]. split; [reflexivity|]. split; [exact Hsmall|].
  exact (proj1 (onepredict_small_image read loader single_image_process_data
                  recording_save sample_evaluator)
           identity_model data [] eq_refl eq_refl Hsmall).
Defined.

(** ** The base class *)

(** X17: the base class cannot process a batch.  With its own
    [process_data], a fold whose loader yields a batch that the model
    predicts loads the model, predicts, and stops with
    [NotImplementedError] at [process_data]: no image is finalized, no
    score is collected, nothing is saved. *)
Theorem base_class_cannot_process
    (weights : Config -> Z -> model) (loader : bool -> list Z -> list batch)
    (fold : Z) (val_index : list Z) (prefix : string) (s : Evaluator.t)
    (data : batch) (rest : list batch) (predicted : tensor) :
  loader (Evaluator.test s) val_index = data :: rest ->
  predict (weights (Evaluator.config s) fold) (image data) (Evaluator.flips s)
  = Ok predicted ->
  Evaluator.on_fold weights loader Evaluator.process_data Evaluator.save
    fold val_index prefix s
  = ([TorchLoad fold], Raise NotImplementedError).
Proof.
  intros Hl Hp.
  destruct s as [cfg fl tst fps nw img fmask cmask fpred b pn onw sm nd dc].
  cbn [Evaluator.config Evaluator.test Evaluator.flips] in Hl, Hp.
  unfold Evaluator.on_fold, Evaluator.read_model. run0.
  apply emit_then. run0. rewrite Hl. cbn [Evaluator.for_each].
  unfold Evaluator.on_batch at 1, Evaluator.predict_samples. run0.
  destruct (mask data); run0; rewrite Hp; run0;
    unfold Evaluator.process_data; run0; reflexivity.
Qed.

Lemma base_class_cannot_process_witness :
  let data := mkBatch two_cells None ["a"%string] in
  let loader := fun (_ : bool) (_ : list Z) => [data] in
  loader (Evaluator.test sample_evaluator) [0] = data :: [] /\
  predict identity_model (image data) (Evaluator.flips sample_evaluator)
  = Ok (F_sigmoid two_cells) /\
  Evaluator.on_fold (fun _ _ => identity_model) loader
    Evaluator.process_data Evaluator.save 0 [0] "" sample_evaluator
  = ([TorchLoad 0], Raise NotImplementedError).
Proof.
  intros data loader.
  split; [reflexivity|]. split; [reflexivity|].
  exact (base_class_cannot_process (fun _ _ => identity_model) loader
           0 [0] ""%string sample_evaluator data [] (F_sigmoid two_cells)
           eq_refl eq_refl).
Defined.
